(** * Call Log Dashboard: normalisation and aggregation pipeline

    A shallow embedding of [app.py].  The script reads every sheet of a
    workbook into one table ([load_excel]), parses the "H:M:S" duration
    strings ([to_seconds]), filters the table on two columns and derives
    the figures shown on the page: the three KPIs, the calls per day, the
    calls per half-hour slot and the longest calls.

    Modelling conventions.

    - A Python call either returns a value or raises: [result A].  The
      bare [except:] of [to_seconds] is the handler [try_except].
    - A string is a sequence of ASCII characters.  [int] follows the
      interpreter on such strings: blanks stripped at both ends, an
      optional sign, decimal digits with single underscores between them.
      (The interpreter's limit on the number of digits is not modelled.)
    - A pandas [Timestamp] is its number of nanoseconds since the epoch; a
      calendar date is the number of days since the epoch.
    - A column is the list of its cells in row order; a missing value
      (NaN, None, NaT) is [CNull], respectively [None].
    - A sheet is taken to have distinct column names once they are
      renamed; a column is looked up by its name.
    - [sort_values] is called with the default sort of pandas, which does
      not promise an order among equal keys: it is a relation between the
      table and its possible results.
    - Sums of durations are exact: the wrap-around of the sum of a 64-bit
      integer column is not modelled.
    - [duration_sec] holds integers; where pandas stores them as binary64
      (a column with a missing value), the value is the same integer.
      Quotients ([/ 60], [mean]) are exact rationals. *)

From Stdlib Require Import ZArith List String Ascii Bool Lia QArith.
From Stdlib Require Import Permutation Sorted.
From Stdlib Require DecimalString DecimalPos.
Import ListNotations.

Open Scope string_scope.
Open Scope list_scope.
Open Scope Z_scope.

(* ================================================================== *)
(** * Python layer *)
(* ================================================================== *)

Module Py.

Inductive exn : Type := ValueError | KeyError | TypeError.

Inductive result (A : Type) : Type :=
| Ok (a : A)
| Raise (e : exn).
Arguments Ok {A} a.
Arguments Raise {A} e.

Definition bind {A B : Type} (c : result A) (k : A -> result B) : result B :=
  match c with
  | Ok a => k a
  | Raise e => Raise e
  end.

(** [try: body / except: return handler]: every exception is caught. *)
Definition try_except {A : Type} (body : result A) (handler : A) : result A :=
  match body with
  | Ok a => Ok a
  | Raise _ => Ok handler
  end.

(** Left-to-right evaluation of a function over a sequence; the first
    exception ends it. *)
Fixpoint map_result {A B : Type} (f : A -> result B) (l : list A)
  : result (list B) :=
  match l with
  | [] => Ok []
  | x :: r =>
      bind (f x) (fun y => bind (map_result f r) (fun ys => Ok (y :: ys)))
  end.

(** [s.split(":")] *)
Fixpoint split_colon (s : string) : list string :=
  match s with
  | EmptyString => [EmptyString]
  | String c r =>
      if Ascii.eqb c ":" then EmptyString :: split_colon r
      else match split_colon r with
           | h :: t => String c h :: t
           | [] => [String c EmptyString]
           end
  end.

(** The blanks [int] skips at both ends of an ASCII string. *)
Definition is_space (c : ascii) : bool :=
  let n := nat_of_ascii c in
  ((9 <=? n)%nat && (n <=? 13)%nat) || (n =? 32)%nat.

Fixpoint lstrip (s : string) : string :=
  match s with
  | EmptyString => EmptyString
  | String c r => if is_space c then lstrip r else s
  end.

Fixpoint rstrip (s : string) : string :=
  match s with
  | EmptyString => EmptyString
  | String c r =>
      match rstrip r with
      | EmptyString => if is_space c then EmptyString else String c EmptyString
      | r' => String c r'
      end
  end.

Definition strip (s : string) : string := rstrip (lstrip s).

Definition digit_val (c : ascii) : option Z :=
  let n := nat_of_ascii c in
  if ((48 <=? n)%nat && (n <=? 57)%nat) then Some (Z.of_nat n - 48) else None.

(** Where the scan of the digits stands: nothing read yet, a digit just
    read, an underscore just read. *)
Inductive dstate : Type := DStart | DDigit | DUnder.

Fixpoint int_digits (st : dstate) (acc : Z) (s : string) : option Z :=
  match s with
  | EmptyString =>
      match st with
      | DDigit => Some acc
      | _ => None
      end
  | String c r =>
      match digit_val c with
      | Some d => int_digits DDigit (10 * acc + d) r
      | None =>
          if Ascii.eqb c "_" then
            match st with
            | DDigit => int_digits DUnder acc r
            | _ => None
            end
          else None
      end
  end.

Definition int_literal (s : string) : option Z :=
  match strip s with
  | String c r =>
      if Ascii.eqb c "-" then option_map Z.opp (int_digits DStart 0 r)
      else if Ascii.eqb c "+" then int_digits DStart 0 r
      else int_digits DStart 0 (String c r)
  | EmptyString => None
  end.

(** [int(s)] on a string: the value, or [ValueError]. *)
Definition int (s : string) : result Z :=
  match int_literal s with
  | Some z => Ok z
  | None => Raise ValueError
  end.

End Py.

Notation "x <- c ;; k" := (Py.bind c (fun x => k))
  (at level 61, c at next level, right associativity).

(* ================================================================== *)
(** * Utility functions *)
(* ================================================================== *)

(** [h, m, s = map(int, str(x).split(":"))] followed by the return
    statement: the body of the [try]. *)
Definition to_seconds_body (x : string) : Py.result Z :=
  parts <- Py.map_result Py.int (Py.split_colon x) ;;
  match parts with
  | [h; m; s] => Py.Ok (h * 3600 + m * 60 + s)
  | _ => Py.Raise Py.ValueError
  end.

Definition to_seconds (x : string) : Py.result (option Z) :=
  Py.try_except (v <- to_seconds_body x ;; Py.Ok (Some v)) None.

(* ================================================================== *)
(** * Tables *)
(* ================================================================== *)

(** A cell as [read_excel] delivers it: empty, a text, or a date-time. *)
Inductive Cell : Type :=
| CNull
| CText (s : string)
| CStamp (t : Z).

Definition cell_eqb (a b : Cell) : bool :=
  match a, b with
  | CNull, CNull => true
  | CText s, CText s' => String.eqb s s'
  | CStamp t, CStamp t' => Z.eqb t t'
  | _, _ => false
  end.

Definition notna (c : Cell) : bool :=
  match c with
  | CNull => false
  | _ => true
  end.

(** One sheet after [read_excel(..., header=1)]: its name, the column
    names of the header row, and the rows below it. *)
Record Sheet : Type := {
  sheet_name : string;
  columns : list string;
  rows : list (list Cell)
}.

(** The value of a row in the column called [name]; a table that is
    asked for a column it only has in other sheets answers NaN. *)
Fixpoint cell_at (cols : list string) (row : list Cell) (name : string) : Cell :=
  match cols, row with
  | c :: cs, v :: vs => if String.eqb c name then v else cell_at cs vs name
  | _, _ => CNull
  end.

(** [df.dropna(how="all")] *)
Definition dropna_all (rs : list (list Cell)) : list (list Cell) :=
  filter (fun row => existsb notna row) rs.

(** The mapping given to [df.rename(columns=...)]. *)
Definition rename_column (c : string) : string :=
  if String.eqb c "Call Type" then "direction"
  else if String.eqb c "Call Start" then "start"
  else if String.eqb c "Call End" then "end"
  else if String.eqb c "Total Call Time (H:m:s)" then "duration_str"
  else if String.eqb c "Assigned User" then "assigned_to"
  else c.

Definition has_column (name : string) (cols : list string) : bool :=
  existsb (String.eqb name) cols.

(** The [date] column holds calendar dates, NaT, or the sheet's name. *)
Inductive DateVal : Type :=
| DNull
| DDay (d : Z)
| DLabel (s : string).

(** A row of the merged table, with the columns the script reads.
    Columns the script never names are carried along by pandas and left
    out here. *)
Record CallRecord : Type := {
  direction : Cell;
  start : option Z;
  end_ : option Z;
  duration_str : Cell;
  duration_sec : option Z;
  assigned_to : Cell;
  date : DateVal
}.

(** ** Time *)

Definition ns_per_second : Z := 1000000000.
Definition ns_per_minute : Z := 60 * ns_per_second.
Definition ns_per_hour : Z := 60 * ns_per_minute.
Definition ns_per_day : Z := 24 * ns_per_hour.

(** [.dt.date] *)
Definition dt_date (t : Z) : Z := t / ns_per_day.

(** [.dt.floor("30min")] *)
Definition floor_30min (t : Z) : Z := t - t mod (30 * ns_per_minute).

Definition hour_of (t : Z) : Z := (t / ns_per_hour) mod 24.
Definition minute_of (t : Z) : Z := (t / ns_per_minute) mod 60.

Definition digit_char (d : Z) : ascii := ascii_of_nat (48 + Z.to_nat d).

Definition two_digits (n : Z) : string :=
  String (digit_char (n / 10)) (String (digit_char (n mod 10)) EmptyString).

(** [.strftime("%I:%M %p")] *)
Definition strftime_I_M_p (t : Z) : string :=
  let h := hour_of t in
  let h12 := if h mod 12 =? 0 then 12 else h mod 12 in
  (two_digits h12 ++ ":" ++ two_digits (minute_of t) ++ " "
     ++ (if (h <? 12)%Z then "AM" else "PM"))%string.

(** [pd.date_range(start, stop, freq=...)]: [start], [start + freq], ...
    up to [stop] included. *)
Definition date_range (start stop freq : Z) : list Z :=
  map (fun k => start + Z.of_nat k * freq)
      (seq 0 (Z.to_nat ((stop - start) / freq + 1))).

(* ================================================================== *)
(** * Series operations *)
(* ================================================================== *)

Section Series.

Context {K : Type}.
Variable eqb : K -> K -> bool.
Variable leb : K -> K -> bool.

(** [.isin(values)] on one element. *)
Definition isin (x : K) (values : list K) : bool := existsb (eqb x) values.

(** [.unique()]: the distinct values in order of first appearance. *)
Fixpoint unique (l : list K) : list K :=
  match l with
  | [] => []
  | x :: r => x :: filter (fun y => negb (eqb x y)) (unique r)
  end.

Definition count (k : K) (l : list K) : nat :=
  List.length (filter (eqb k) l).

Fixpoint insert_sorted (k : K) (l : list K) : list K :=
  match l with
  | [] => [k]
  | x :: r => if leb k x then k :: l else x :: insert_sorted k r
  end.

Definition sort_keys (l : list K) : list K :=
  fold_right insert_sorted [] l.

(** [.groupby(key).size().reset_index(name="count")] over the key
    column (missing keys already dropped): one row per distinct key, in
    ascending order of the keys, with the number of rows of the group. *)
Definition groupby_size (keys : list K) : list (K * nat) :=
  map (fun k => (k, count k keys)) (sort_keys (unique keys)).

(** [df[mask]] *)
Fixpoint select {A : Type} (df : list A) (mask : list bool) : list A :=
  match df, mask with
  | r :: rs, b :: bs => if b then r :: select rs bs else select rs bs
  | _, _ => []
  end.

End Series.

(** [mask_a & mask_b] *)
Fixpoint mask_and (a b : list bool) : list bool :=
  match a, b with
  | x :: xs, y :: ys => (x && y) :: mask_and xs ys
  | _, _ => []
  end.

(** A number as the script shows it: a quotient, or NaN. *)
Inductive number : Type :=
| NaN
| Fin (q : Q).

Definition isnull {A : Type} (v : option A) : bool :=
  match v with
  | None => true
  | Some _ => false
  end.

(** [.sum()]: missing values are skipped. *)
Definition series_sum (col : list (option Z)) : Z :=
  fold_right (fun v acc => match v with Some z => z + acc | None => acc end) 0 col.

(** [.count()]: the number of values that are not missing. *)
Definition series_count (col : list (option Z)) : nat :=
  List.length (filter (fun v => negb (isnull v)) col).

(** [.mean()]: missing values are skipped in the sum and in the number of
    values; NaN when nothing is left. *)
Definition series_mean (col : list (option Z)) : number :=
  match series_count col with
  | O => NaN
  | S _ => Fin (Qred (inject_Z (series_sum col) / inject_Z (Z.of_nat (series_count col))))
  end.

Definition div_by (x : number) (d : Z) : number :=
  match x with
  | NaN => NaN
  | Fin q => Fin (Qred (q / inject_Z d))
  end.

(* ================================================================== *)
(** * Loading the workbook *)
(* ================================================================== *)

(** The table of one sheet as it is appended to [all_data]: renamed
    columns, the rows that are not entirely empty, and the new [date]
    column. *)
Record Frame : Type := {
  f_columns : list string;
  f_rows : list (list Cell);
  f_date : list DateVal
}.

Definition date_of_stamp (t : option Z) : DateVal :=
  match t with
  | Some ns => DDay (dt_date ns)
  | None => DNull
  end.

Definition frame_column (name : string) (f : Frame) : list Cell :=
  map (fun row => cell_at (f_columns f) row name) (f_rows f).

(** A column of [pd.concat(all_data, ignore_index=True)]. *)
Definition concat_column (name : string) (all_data : list Frame) : list Cell :=
  flat_map (frame_column name) all_data.

Section Loader.

(** [pd.to_datetime(column, errors="coerce")] belongs to pandas: it is
    taken as given, one result per cell, NaT ([None]) where a cell does
    not parse. *)
Variable to_datetime : list Cell -> list (option Z).
Hypothesis to_datetime_length :
  forall col, List.length (to_datetime col) = List.length col.

(** [str(t)] of a date-time cell, also pandas' own. *)
Variable str_stamp : Z -> string.

(** One element of [.astype(str)]. *)
Definition cell_str (c : Cell) : string :=
  match c with
  | CNull => "nan"
  | CText s => s
  | CStamp t => str_stamp t
  end.

(** The body of the loop over the sheets. *)
Definition read_sheet (sh : Sheet) : Frame :=
  let rs := dropna_all (rows sh) in
  let cols := map rename_column (columns sh) in
  {| f_columns := cols;
     f_rows := rs;
     f_date :=
       if has_column "start" cols
       then map date_of_stamp
                (to_datetime (map (fun row => cell_at cols row "start") rs))
       else map (fun _ => DLabel (sheet_name sh)) rs |}.

Definition load_excel (xls : list Sheet) : Py.result (list CallRecord) :=
  match xls with
  | [] => Py.Raise Py.ValueError
  | _ :: _ =>
      let all_data := map read_sheet xls in
      let final_columns := flat_map f_columns all_data in
      if negb (has_column "duration_str" final_columns) then Py.Raise Py.KeyError
      else
        let strs := concat_column "duration_str" all_data in
        secs <- Py.map_result to_seconds (map cell_str strs) ;;
        if negb (has_column "start" final_columns) then Py.Raise Py.KeyError
        else if negb (has_column "end" final_columns) then Py.Raise Py.KeyError
        else
          let starts := to_datetime (concat_column "start" all_data) in
          let ends := to_datetime (concat_column "end" all_data) in
          let dirs := concat_column "direction" all_data in
          let users := concat_column "assigned_to" all_data in
          let dates := flat_map f_date all_data in
          Py.Ok (map (fun i =>
                        {| direction := nth i dirs CNull;
                           start := nth i starts None;
                           end_ := nth i ends None;
                           duration_str := nth i strs CNull;
                           duration_sec := nth i secs None;
                           assigned_to := nth i users CNull;
                           date := nth i dates DNull |})
                     (seq 0 (List.length strs)))
  end.

End Loader.

(* ================================================================== *)
(** * The dashboard *)
(* ================================================================== *)

(** ** Sidebar filters *)

(** [df[col].dropna().unique().tolist()] *)
Definition options (col : list Cell) : list Cell :=
  unique cell_eqb (filter notna col).

Definition assigned_options (df : list CallRecord) : list Cell :=
  options (map assigned_to df).

Definition direction_options (df : list CallRecord) : list Cell :=
  options (map direction df).

Definition filtered_df (df : list CallRecord)
           (assigned_filter direction_filter : list Cell) : list CallRecord :=
  select df
    (mask_and (map (fun c => isin cell_eqb c assigned_filter) (map assigned_to df))
              (map (fun c => isin cell_eqb c direction_filter) (map direction df))).

(** ** KPIs *)

Definition total_calls (fdf : list CallRecord) : nat := List.length fdf.

Definition total_duration (fdf : list CallRecord) : number :=
  div_by (Fin (inject_Z (series_sum (map duration_sec fdf)))) 60.

Definition avg_duration (fdf : list CallRecord) : number :=
  if (0 <? total_calls fdf)%nat
  then div_by (series_mean (map duration_sec fdf)) 60
  else Fin 0.

(** ** Calls per day *)

Definition date_eqb (a b : DateVal) : bool :=
  match a, b with
  | DNull, DNull => true
  | DDay d, DDay d' => Z.eqb d d'
  | DLabel s, DLabel s' => String.eqb s s'
  | _, _ => false
  end.

(** Calendar dates in ascending order, then the sheet names. *)
Definition date_leb (a b : DateVal) : bool :=
  match a, b with
  | DDay d, DDay d' => Z.leb d d'
  | DDay _, _ => true
  | DLabel s, DLabel s' => String.leb s s'
  | DLabel _, DNull => true
  | DLabel _, DDay _ => false
  | DNull, DNull => true
  | DNull, _ => false
  end.

Definition date_notna (d : DateVal) : bool :=
  match d with
  | DNull => false
  | _ => true
  end.

(** [filtered_df.groupby("date").size()]: rows whose key is missing
    belong to no group. *)
Definition calls_per_day (fdf : list CallRecord) : list (DateVal * nat) :=
  groupby_size date_eqb date_leb (filter date_notna (map date fdf)).

(** ** Calls by hour *)

Section Slots.

(** The day on which the script runs: [pd.date_range("09:30", ...)]
    reads a bare time as a time of the current day. *)
Variable today : Z.

Definition valid_hours : list string :=
  map strftime_I_M_p
      (date_range (today * ns_per_day + 9 * ns_per_hour + 30 * ns_per_minute)
                  (today * ns_per_day + 18 * ns_per_hour + 30 * ns_per_minute)
                  (30 * ns_per_minute)).

(** The [hour_slot] column: NaN where [start] is NaT. *)
Definition hour_slot (r : CallRecord) : option string :=
  option_map (fun t => strftime_I_M_p (floor_30min t)) (start r).

Definition slot_isin (s : option string) (values : list string) : bool :=
  match s with
  | Some l => isin String.eqb l values
  | None => false
  end.

(** [df_hour[df_hour["hour_slot"].isin(valid_hours)]] *)
Definition df_hour (fdf : list CallRecord) : list CallRecord :=
  select fdf (map (fun r => slot_isin (hour_slot r) valid_hours) fdf).

Definition slot_keys (df : list CallRecord) : list string :=
  flat_map (fun r => match hour_slot r with Some l => [l] | None => [] end) df.

Definition calls_by_hour (fdf : list CallRecord) : list (string * nat) :=
  groupby_size String.eqb String.leb (slot_keys (df_hour fdf)).

End Slots.

(** The nineteen labels from 09:30 to 18:30. *)
Definition business_slots : list string :=
  ["09:30 AM"; "10:00 AM"; "10:30 AM"; "11:00 AM"; "11:30 AM";
   "12:00 PM"; "12:30 PM"; "01:00 PM"; "01:30 PM"; "02:00 PM";
   "02:30 PM"; "03:00 PM"; "03:30 PM"; "04:00 PM"; "04:30 PM";
   "05:00 PM"; "05:30 PM"; "06:00 PM"; "06:30 PM"].

(** ** Longest calls *)

(** [a] may stand before [b] when the column is in descending order with
    the missing values last. *)
Definition dur_ge (a b : option Z) : Prop :=
  match a, b with
  | _, None => True
  | None, Some _ => False
  | Some x, Some y => y <= x
  end.

Definition rec_ge (r r' : CallRecord) : Prop :=
  dur_ge (duration_sec r) (duration_sec r').

(** [df.sort_values(by="duration_sec", ascending=False)].  No [kind] is
    given, so pandas sorts with its default, which its documentation
    lists as not stable: the result is some arrangement of the rows in
    descending order, missing values last, and the order among rows with
    equal keys is left to the library. *)
Definition sort_values_desc (df out : list CallRecord) : Prop :=
  Permutation df out /\ StronglySorted rec_ge out.

(** [.head(n)] *)
Definition head {A : Type} (n : nat) (l : list A) : list A := firstn n l.

Definition top_longest (fdf out : list CallRecord) : Prop :=
  exists sorted, sort_values_desc fdf sorted /\ out = head 5 sorted.

(** The arrangement a stable sort produces: descending, missing values
    last, rows with equal keys in their input order. *)
Definition dur_geb (a b : option Z) : bool :=
  match a, b with
  | _, None => true
  | None, Some _ => false
  | Some x, Some y => y <=? x
  end.

Fixpoint insert_desc (r : CallRecord) (l : list CallRecord) : list CallRecord :=
  match l with
  | [] => [r]
  | x :: t =>
      if dur_geb (duration_sec r) (duration_sec x) then r :: l
      else x :: insert_desc r t
  end.

Definition stable_sort_desc (df : list CallRecord) : list CallRecord :=
  fold_right insert_desc [] df.

(** ** Direction split *)

(** [series.value_counts()]: one row per distinct value that is not
    missing, with its number of occurrences, the larger counts first.  The
    order among values of equal count is left to the library. *)
Definition value_counts (col : list Cell) (out : list (Cell * nat)) : Prop :=
  Permutation
    (map (fun k => (k, count cell_eqb k (filter notna col)))
         (unique cell_eqb (filter notna col)))
    out
  /\ StronglySorted (fun p q => (snd q <= snd p)%nat) out.

Definition pie_data (fdf : list CallRecord) (out : list (Cell * nat)) : Prop :=
  value_counts (map direction fdf) out.

(** ** Heatmap *)

Definition day_names : list string :=
  ["Monday"; "Tuesday"; "Wednesday"; "Thursday"; "Friday"; "Saturday"; "Sunday"].

(** [.dt.day_name()]: day 0 of the epoch was a Thursday. *)
Definition day_name (t : Z) : string :=
  nth (Z.to_nat ((dt_date t + 3) mod 7)) day_names "".

(** The [dayofweek] column: NaN where [start] is NaT. *)
Definition dayofweek (r : CallRecord) : option string :=
  option_map day_name (start r).

Definition valid_days : list string :=
  ["Monday"; "Tuesday"; "Wednesday"; "Thursday"; "Friday"; "Saturday"].

Definition pair_eqb (a b : string * string) : bool :=
  String.eqb (fst a) (fst b) && String.eqb (snd a) (snd b).

(** Order of the pairs of keys: by day name, then by slot label. *)
Definition pair_leb (a b : string * string) : bool :=
  if String.eqb (fst a) (fst b) then String.leb (snd a) (snd b)
  else String.leb (fst a) (fst b).

Section Heatmap.

Variable today : Z.

(** The two restrictions of [df_heat], days first. *)
Definition df_heat (fdf : list CallRecord) : list CallRecord :=
  let on_days := select fdf (map (fun r => slot_isin (dayofweek r) valid_days) fdf) in
  select on_days
         (map (fun r => slot_isin (hour_slot r) (valid_hours today)) on_days).

Definition heat_keys (df : list CallRecord) : list (string * string) :=
  flat_map (fun r => match dayofweek r, hour_slot r with
                     | Some d, Some l => [(d, l)]
                     | _, _ => []
                     end) df.

(** [df_heat.groupby(["dayofweek", "hour_slot"]).size()] *)
Definition heatmap_data (fdf : list CallRecord) : list ((string * string) * nat) :=
  groupby_size pair_eqb pair_leb (heat_keys (df_heat fdf)).

End Heatmap.

(** ** Table of the longest calls *)

(** [top_longest[["assigned_to", "date", "duration_str", "direction"]]] *)
Definition top_longest_display (top : list CallRecord)
  : list (Cell * DateVal * Cell * Cell) :=
  map (fun r => (assigned_to r, date r, duration_str r, direction r)) top.

(* ================================================================== *)
(** * Vocabulary of the statements *)
(* ================================================================== *)

(** The character [ch] occurs in [s]. *)
Fixpoint has_char (ch : ascii) (s : string) : bool :=
  match s with
  | EmptyString => false
  | String c r => Ascii.eqb c ch || has_char ch r
  end.

(** What a well-formed duration denotes, component by component. *)
Definition hms_value (a b c : string) : option Z :=
  match Py.int_literal a, Py.int_literal b, Py.int_literal c with
  | Some h, Some m, Some s => Some (h * 3600 + m * 60 + s)
  | _, _, _ => None
  end.

(** A string of decimal digits, as [Decimal.uint] spells it. *)
Definition digits (d : Decimal.uint) : string :=
  DecimalString.NilEmpty.string_of_uint d.

(** Left-to-right value of a digit sequence, starting from [acc]. *)
Fixpoint horner (acc : Z) (d : Decimal.uint) : Z :=
  match d with
  | Decimal.Nil => acc
  | Decimal.D0 l => horner (10 * acc + 0) l
  | Decimal.D1 l => horner (10 * acc + 1) l
  | Decimal.D2 l => horner (10 * acc + 2) l
  | Decimal.D3 l => horner (10 * acc + 3) l
  | Decimal.D4 l => horner (10 * acc + 4) l
  | Decimal.D5 l => horner (10 * acc + 5) l
  | Decimal.D6 l => horner (10 * acc + 6) l
  | Decimal.D7 l => horner (10 * acc + 7) l
  | Decimal.D8 l => horner (10 * acc + 8) l
  | Decimal.D9 l => horner (10 * acc + 9) l
  end.

Definition sum_counts {K : Type} (g : list (K * nat)) : nat :=
  fold_right (fun p acc => (snd p + acc)%nat) 0%nat g.

(** The row test of the sidebar filters. *)
Definition keep (assigned_filter direction_filter : list Cell) (r : CallRecord) : bool :=
  isin cell_eqb (assigned_to r) assigned_filter
  && isin cell_eqb (direction r) direction_filter.

(** The average the text of the specification describes: the sum of the
    durations present over the number of all rows, in minutes. *)
Definition avg_over_all_rows (fdf : list CallRecord) : number :=
  Fin (Qred (inject_Z (series_sum (map duration_sec fdf))
             / inject_Z (Z.of_nat (total_calls fdf)) / inject_Z 60)).

(** Sample rows. *)
Definition call (user : string) (st : option Z) (dur : option Z) (d : DateVal)
  : CallRecord :=
  {| direction := CText "Incoming"; start := st; end_ := None;
     duration_str := CNull; duration_sec := dur;
     assigned_to := CText user; date := d |}.

Definition at_time (h m : Z) : option Z :=
  Some (19793 * ns_per_day + h * ns_per_hour + m * ns_per_minute).

(** A [to_datetime] for the examples: date-time cells are kept, every
    other cell is NaT. *)
Definition to_datetime_stamps (col : list Cell) : list (option Z) :=
  map (fun c => match c with CStamp t => Some t | _ => None end) col.

(** A [str] of date-time cells for the examples, none of which has a
    date-time in the duration column. *)
Definition str_stamp_plain (t : Z) : string := "1970-01-01 00:00:00".

(** A workbook with two sheets.  The first has every column, one empty
    row, and a row whose start is not a date; the second has no start
    column. *)
Definition sample_book : list Sheet :=
  [ {| sheet_name := "March";
       columns := ["Call Type"; "Call Start"; "Call End";
                   "Total Call Time (H:m:s)"; "Assigned User"];
       rows := [ [CText "Incoming"; CStamp 1710150300000000000;
                  CStamp 1710150400000000000; CText "00:01:40"; CText "ann"];
                 [CNull; CNull; CNull; CNull; CNull];
                 [CText "Outgoing"; CText "n/a"; CNull; CText "-1:0:0"; CNull] ] |};
    {| sheet_name := "Notes";
       columns := ["Call Type"; "Total Call Time (H:m:s)"];
       rows := [ [CText "Incoming"; CText "1:2"] ] |} ].

Definition sample_table : list CallRecord :=
  [ {| direction := CText "Incoming"; start := Some 1710150300000000000;
       end_ := Some 1710150400000000000; duration_str := CText "00:01:40";
       duration_sec := Some 100; assigned_to := CText "ann";
       date := DDay 19793 |};
    {| direction := CText "Outgoing"; start := None; end_ := None;
       duration_str := CText "-1:0:0"; duration_sec := Some (-3600);
       assigned_to := CNull; date := DNull |};
    {| direction := CText "Incoming"; start := None; end_ := None;
       duration_str := CText "1:2"; duration_sec := None;
       assigned_to := CNull; date := DLabel "Notes" |} ].

(** The values of a column that are not missing. *)
Definition present (col : list (option Z)) : list Z :=
  flat_map (fun v => match v with Some z => [z] | None => [] end) col.

Definition both_notna (r : CallRecord) : bool :=
  notna (assigned_to r) && notna (direction r).

(** Two calls, one of two minutes and one whose duration is missing. *)
Definition one_null_duration : list CallRecord :=
  [ call "ann" None (Some 120) (DDay 19793);
    call "bob" None None (DDay 19793) ].

(** A call at 13:15 followed by a call at 10:15. *)
Definition two_slots : list CallRecord :=
  [ call "ann" (at_time 13 15) (Some 60) (DDay 19793);
    call "bob" (at_time 10 15) (Some 60) (DDay 19793) ].

(** Eighteen calls of five minutes each. *)
Definition tied_calls : list CallRecord :=
  map (fun user => call user None (Some 300) (DDay 19793))
      ["c01"; "c02"; "c03"; "c04"; "c05"; "c06"; "c07"; "c08"; "c09";
       "c10"; "c11"; "c12"; "c13"; "c14"; "c15"; "c16"; "c17"; "c18"].

(** The start of [r] falls in the slot labelled [l]. *)
Definition slot_is (l : string) (r : CallRecord) : bool :=
  match hour_slot r with
  | Some l' => String.eqb l' l
  | None => false
  end.

(** Every character of [s] passes [p]. *)
Fixpoint forall_chars (p : ascii -> bool) (s : string) : bool :=
  match s with
  | EmptyString => true
  | String c r => p c && forall_chars p r
  end.

Definition is_digit (c : ascii) : bool :=
  match Py.digit_val c with
  | Some _ => true
  | None => false
  end.

(** The characters a duration that parses is written with. *)
Definition duration_char (c : ascii) : bool :=
  is_digit c || Py.is_space c || Ascii.eqb c ":" || Ascii.eqb c "+"
  || Ascii.eqb c "-" || Ascii.eqb c "_".

(** Nanoseconds since midnight, and the half hour of the day they fall
    in, from 0 to 47. *)
Definition time_of_day (t : Z) : Z := t mod ns_per_day.

Definition half_hour_index (t : Z) : Z := time_of_day t / (30 * ns_per_minute).

(** The label of the half hour [k] of the day. *)
Definition slot_label (k : Z) : string :=
  strftime_I_M_p (k * (30 * ns_per_minute)).

(** The nineteen labels in the order of their text. *)
Definition slots_by_label : list string :=
  ["01:00 PM"; "01:30 PM"; "02:00 PM"; "02:30 PM"; "03:00 PM"; "03:30 PM";
   "04:00 PM"; "04:30 PM"; "05:00 PM"; "05:30 PM"; "06:00 PM"; "06:30 PM";
   "09:30 AM"; "10:00 AM"; "10:30 AM"; "11:00 AM"; "11:30 AM";
   "12:00 PM"; "12:30 PM"].

Definition string_le (a b : string) : Prop := String.leb a b = true.
Definition date_le (a b : DateVal) : Prop := date_leb a b = true.

(** The row is on one of the six days and in one of the nineteen slots. *)
Definition on_heatmap (r : CallRecord) : bool :=
  slot_isin (dayofweek r) valid_days && slot_isin (hour_slot r) business_slots.

(** A call every half hour of one Monday, from midnight on. *)
Definition monday_calls : list CallRecord :=
  map (fun k => call "ann" (Some (19793 * ns_per_day + Z.of_nat k * (30 * ns_per_minute)))
                     (Some 60) (DDay 19793))
      (seq 0 48).

(** Calls on a Sunday and on the Monday after it, both at 10:15. *)
Definition weekend_calls : list CallRecord :=
  [ call "ann" (Some (19792 * ns_per_day + 10 * ns_per_hour + 15 * ns_per_minute))
         (Some 60) (DDay 19792);
    call "bob" (at_time 10 15) (Some 90) (DDay 19793) ].

(** The character is in the ASCII range, which is where [Py.int] follows
    the interpreter. *)
Definition is_ascii (c : ascii) : bool := (nat_of_ascii c <? 128)%nat.



(* ================================================================== *)
(** * The duration parser *)
(* ================================================================== *)

Section ParserFacts.

Import Py.

Lemma map_result_length {A B : Type} (f : A -> result B) :
  forall l ys, map_result f l = Ok ys -> List.length ys = List.length l.
Proof.
  induction l as [|x r IH]; simpl; intros ys H.
  - injection H as <-. reflexivity.
  - destruct (f x) as [y|e]; simpl in H; [|discriminate].
    destruct (map_result f r) as [zs|e]; simpl in H; [|discriminate].
    injection H as <-. simpl. f_equal. now apply IH.
Qed.

Lemma map_result_nth {A B : Type} (f : A -> result B) (da : A) (db : B) :
  forall l ys, map_result f l = Ok ys ->
  forall i, (i < List.length l)%nat -> f (nth i l da) = Ok (nth i ys db).
Proof.
  induction l as [|x r IH]; simpl; intros ys H i Hi; [lia|].
  destruct (f x) as [y|e] eqn:Hx; simpl in H; [|discriminate].
  destruct (map_result f r) as [zs|e]; simpl in H; [|discriminate].
  injection H as <-. destruct i as [|i]; simpl; [assumption|].
  apply IH; [reflexivity | lia].
Qed.

Lemma map_result_total {A B : Type} (f : A -> result B) :
  (forall x, exists y, f x = Ok y) ->
  forall l, exists ys, map_result f l = Ok ys.
Proof.
  intros Hf. induction l as [|x r [ys IH]]; simpl.
  - now exists [].
  - destruct (Hf x) as [y ->]. rewrite IH. simpl. now exists (y :: ys).
Qed.

Lemma split_colon_nonempty s : split_colon s <> [].
Proof.
  destruct s as [|c r]; simpl; [discriminate|].
  destruct (Ascii.eqb c ":"); [discriminate|].
  destruct (split_colon r); discriminate.
Qed.

Lemma split_colon_plain a :
  has_char ":" a = false -> split_colon a = [a].
Proof.
  induction a as [|c r IH]; simpl; intros H; [reflexivity|].
  apply orb_false_iff in H as [Hc Hr]. rewrite Hc, (IH Hr). reflexivity.
Qed.

Lemma split_colon_app a r :
  has_char ":" a = false ->
  split_colon (a ++ String ":" r)%string = a :: split_colon r.
Proof.
  induction a as [|c a IH]; simpl; intros H; [reflexivity|].
  apply orb_false_iff in H as [Hc Ha]. rewrite Hc, (IH Ha). reflexivity.
Qed.

Lemma split_colon_hms a b c :
  has_char ":" a = false -> has_char ":" b = false -> has_char ":" c = false ->
  split_colon (a ++ ":" ++ b ++ ":" ++ c)%string = [a; b; c].
Proof.
  intros Ha Hb Hc. simpl.
  rewrite (split_colon_app _ _ Ha), (split_colon_app _ _ Hb).
  now rewrite (split_colon_plain _ Hc).
Qed.

Lemma split_colon_chars ch :
  forall x t, In t (split_colon x) -> has_char ch t = true -> has_char ch x = true.
Proof.
  induction x as [|c r IH]; simpl; intros t Hin Ht.
  - destruct Hin as [<-|[]]. discriminate.
  - destruct (Ascii.eqb c ":") eqn:Hc.
    + destruct Hin as [<-|Hin]; [discriminate|].
      rewrite (IH _ Hin Ht). apply orb_true_r.
    + destruct (split_colon r) as [|h tl] eqn:Hs.
      * destruct Hin as [<-|[]]. simpl in Ht.
        now rewrite orb_false_r in Ht; rewrite Ht.
      * destruct Hin as [<-|Hin].
        -- simpl in Ht. apply orb_true_iff in Ht as [Ht|Ht].
           ++ now rewrite Ht.
           ++ rewrite (IH h (or_introl eq_refl) Ht). apply orb_true_r.
        -- rewrite (IH t (or_intror Hin) Ht). apply orb_true_r.
Qed.

Lemma to_seconds_body_arity x :
  List.length (split_colon x) <> 3%nat -> exists e, to_seconds_body x = Raise e.
Proof.
  unfold to_seconds_body. intros Hlen.
  destruct (map_result int (split_colon x)) as [ys|e] eqn:Hm; simpl.
  - apply map_result_length in Hm. rewrite <- Hm in Hlen.
    destruct ys as [|y1 [|y2 [|y3 [|y4 ys]]]]; simpl in Hlen;
      first [now exists ValueError | lia].
  - now exists e.
Qed.

(** What the function computes, read off the token list. *)
Lemma to_seconds_eq x :
  to_seconds x =
  Ok (match split_colon x with
      | [a; b; c] => hms_value a b c
      | _ => None
      end).
Proof.
  destruct (Nat.eq_dec (List.length (split_colon x)) 3) as [Hlen|Hlen].
  - unfold to_seconds, to_seconds_body, hms_value.
    destruct (split_colon x) as [|a [|b [|c [|d l]]]]; try discriminate Hlen.
    simpl. unfold int.
    destruct (int_literal a), (int_literal b), (int_literal c); reflexivity.
  - destruct (to_seconds_body_arity x Hlen) as [e He].
    unfold to_seconds. rewrite He. simpl.
    destruct (split_colon x) as [|a [|b [|c [|d l]]]]; try reflexivity.
    now elim Hlen.
Qed.

(** ** Digit strings *)

Lemma int_digits_run d :
  forall acc, int_digits DDigit acc (digits d) = Some (horner acc d).
Proof.
  induction d; intros acc; simpl; try reflexivity; apply IHd.
Qed.

Lemma int_digits_start d :
  d <> Decimal.Nil -> int_digits DStart 0 (digits d) = Some (horner 0 d).
Proof.
  destruct d; intros Hd; try (now elim Hd); simpl; apply int_digits_run.
Qed.

Lemma horner_pos d :
  forall p, horner (Zpos p) d = Zpos (Pos.of_uint_acc d p).
Proof.
  induction d; intros p; cbn [horner Pos.of_uint_acc]; try reflexivity;
    match goal with
    | |- horner ?a _ = Zpos (Pos.of_uint_acc _ ?q) =>
        replace a with (Zpos q) by lia; apply IHd
    end.
Qed.

Lemma horner_value d : horner 0 d = Z.of_uint d.
Proof.
  unfold Z.of_uint.
  induction d; cbn [horner Pos.of_uint]; try reflexivity; try assumption;
    match goal with
    | |- horner ?a _ = Z.of_N (Npos (Pos.of_uint_acc _ ?q)) =>
        change a with (Zpos q)
    end; rewrite horner_pos; reflexivity.
Qed.

Lemma lstrip_digits d : lstrip (digits d) = digits d.
Proof. destruct d; reflexivity. Qed.

Lemma rstrip_digits d : rstrip (digits d) = digits d.
Proof.
  induction d; simpl; try reflexivity; rewrite IHd;
    destruct d; reflexivity.
Qed.

Lemma digits_no_char ch d :
  digit_val ch = None -> has_char ch (digits d) = false.
Proof.
  intros Hch. unfold digits.
  induction d; cbn [DecimalString.NilEmpty.string_of_uint has_char];
    try reflexivity; rewrite IHd, orb_false_r;
    apply Ascii.eqb_neq; intros <-; discriminate Hch.
Qed.

Lemma int_literal_digits d :
  d <> Decimal.Nil -> int_literal (digits d) = Some (Z.of_uint d).
Proof.
  intros Hd. unfold int_literal, strip.
  rewrite lstrip_digits, rstrip_digits, <- horner_value, <- (int_digits_start d Hd).
  destruct d; try (now elim Hd); reflexivity.
Qed.

(** ** Signs *)

Lemma digit_val_range c d : digit_val c = Some d -> 0 <= d <= 9.
Proof.
  unfold digit_val.
  destruct (48 <=? nat_of_ascii c)%nat eqn:H1; simpl; [|discriminate].
  destruct (nat_of_ascii c <=? 57)%nat eqn:H2; [|discriminate].
  intros [= <-]. apply Nat.leb_le in H1, H2. lia.
Qed.

Lemma int_digits_nonneg :
  forall s st acc z, int_digits st acc s = Some z -> 0 <= acc -> 0 <= z.
Proof.
  induction s as [|c r IH]; cbn [int_digits]; intros st acc z H Hacc.
  - destruct st; congruence.
  - destruct (digit_val c) as [d|] eqn:Hd.
    + apply digit_val_range in Hd. apply (IH _ _ _ H). lia.
    + destruct (Ascii.eqb c "_"); [|discriminate].
      destruct st; try discriminate. now apply (IH _ _ _ H).
Qed.

Lemma lstrip_head s c r : lstrip s = String c r -> has_char c s = true.
Proof.
  induction s as [|c' s IH]; simpl; [discriminate|].
  destruct (is_space c').
  - intros H. rewrite (IH H). apply orb_true_r.
  - intros [= -> _]. now rewrite Ascii.eqb_refl.
Qed.

Lemma rstrip_head s c r : rstrip s = String c r -> exists r', s = String c r'.
Proof.
  destruct s as [|c' s]; simpl; [discriminate|].
  destruct (rstrip s).
  - destruct (is_space c'); [discriminate|]. intros [= -> _]. now exists s.
  - intros [= -> _]. now exists s.
Qed.

Lemma strip_head s c r : strip s = String c r -> has_char c s = true.
Proof.
  unfold strip. intros H. apply rstrip_head in H as [r' H].
  now apply lstrip_head in H.
Qed.

Lemma int_literal_nonneg s z :
  int_literal s = Some z -> has_char "-" s = false -> 0 <= z.
Proof.
  unfold int_literal. destruct (strip s) as [|c r] eqn:Hs; [discriminate|].
  intros H Hminus. destruct (Ascii.eqb c "-") eqn:Hc.
  - apply Ascii.eqb_eq in Hc. subst c. apply strip_head in Hs. congruence.
  - destruct (Ascii.eqb c "+"); apply int_digits_nonneg in H; lia.
Qed.

End ParserFacts.

(* ================================================================== *)
(** * The merged table *)
(* ================================================================== *)

Lemma nth_seq_map {A : Type} (d : A) (l : list A) :
  map (fun i => nth i l d) (seq 0 (List.length l)) = l.
Proof.
  induction l as [|x r IH]; simpl; [reflexivity|].
  f_equal. rewrite <- seq_shift, map_map. exact IH.
Qed.

Lemma length_flat_map_eq {A B C : Type} (f : A -> list B) (g : A -> list C) l :
  (forall x, In x l -> List.length (f x) = List.length (g x)) ->
  List.length (flat_map f l) = List.length (flat_map g l).
Proof.
  induction l as [|x r IH]; simpl; intros H; [reflexivity|].
  rewrite !length_app, (H x (or_introl eq_refl)), IH; [reflexivity|].
  intros y Hy. apply H. now right.
Qed.

Section LoaderFacts.

Variable to_datetime : list Cell -> list (option Z).
Hypothesis to_datetime_length :
  forall col, List.length (to_datetime col) = List.length col.
Variable str_stamp : Z -> string.

Local Abbreviation read := (read_sheet to_datetime).
Local Abbreviation load := (load_excel to_datetime str_stamp).
Local Abbreviation str := (cell_str str_stamp).

Lemma f_date_length sh :
  List.length (f_date (read sh)) = List.length (f_rows (read sh)).
Proof.
  unfold read_sheet. simpl.
  destruct (has_column "start" (map rename_column (columns sh))).
  - now rewrite length_map, to_datetime_length, length_map.
  - now rewrite length_map.
Qed.

(** The table [load_excel] returns, when it returns: row [i] is made of
    the [i]-th entries of the merged columns. *)
Lemma load_excel_inv xls df :
  load xls = Py.Ok df ->
  let all_data := map read xls in
  let strs := concat_column "duration_str" all_data in
  exists secs,
    Py.map_result to_seconds (map str strs) = Py.Ok secs /\
    df = map (fun i =>
                {| direction := nth i (concat_column "direction" all_data) CNull;
                   start := nth i (to_datetime (concat_column "start" all_data)) None;
                   end_ := nth i (to_datetime (concat_column "end" all_data)) None;
                   duration_str := nth i strs CNull;
                   duration_sec := nth i secs None;
                   assigned_to := nth i (concat_column "assigned_to" all_data) CNull;
                   date := nth i (flat_map f_date all_data) DNull |})
             (seq 0 (List.length strs)).
Proof.
  unfold load_excel. destruct xls as [|sh xls]; [discriminate|].
  set (all_data := map read (sh :: xls)).
  destruct (has_column "duration_str" (flat_map f_columns all_data));
    [|discriminate]. cbn [negb].
  destruct (Py.map_result to_seconds
              (map str (concat_column "duration_str" all_data)))
    as [secs|e] eqn:Hsecs; [|discriminate]. cbn [Py.bind].
  destruct (has_column "start" (flat_map f_columns all_data)); [|discriminate].
  destruct (has_column "end" (flat_map f_columns all_data)); [|discriminate].
  cbn [negb]. intros [= <-]. exists secs. split; reflexivity.
Qed.

Lemma concat_column_length name xls :
  List.length (concat_column name (map read xls))
  = List.length (flat_map f_date (map read xls)).
Proof.
  unfold concat_column. apply length_flat_map_eq. intros f Hf.
  apply in_map_iff in Hf as [sh [<- _]].
  unfold frame_column. now rewrite length_map, f_date_length.
Qed.

Lemma load_excel_dates xls df :
  load xls = Py.Ok df ->
  map date df = flat_map (fun sh => f_date (read sh)) xls.
Proof.
  intros H. destruct (load_excel_inv _ _ H) as [secs [_ ->]].
  rewrite map_map. cbn [date].
  rewrite concat_column_length, nth_seq_map, flat_map_concat_map, map_map.
  now rewrite <- flat_map_concat_map.
Qed.

Lemma load_excel_durations xls df r :
  load xls = Py.Ok df -> In r df ->
  to_seconds (str (duration_str r)) = Py.Ok (duration_sec r).
Proof.
  intros H Hr. destruct (load_excel_inv _ _ H) as [secs [Hsecs ->]].
  apply in_map_iff in Hr as [i [<- Hi]]. apply in_seq in Hi. cbn [duration_str duration_sec].
  rewrite <- (map_nth str).
  apply (map_result_nth to_seconds (str CNull) None _ _ Hsecs).
  rewrite length_map. lia.
Qed.

End LoaderFacts.

(* ================================================================== *)
(** * Masks and groups *)
(* ================================================================== *)

Lemma select_mask {A : Type} (f : A -> bool) (df : list A) :
  select df (map f df) = filter f df.
Proof.
  induction df as [|r rs IH]; simpl; [reflexivity|].
  destruct (f r); now rewrite IH.
Qed.

Lemma mask_and_map {A : Type} (f g : A -> bool) (df : list A) :
  mask_and (map f df) (map g df) = map (fun r => f r && g r) df.
Proof.
  induction df as [|r rs IH]; simpl; [reflexivity|]. now rewrite IH.
Qed.

Lemma filter_idem {A : Type} (f : A -> bool) (l : list A) :
  filter f (filter f l) = filter f l.
Proof.
  induction l as [|x r IH]; simpl; [reflexivity|].
  destruct (f x) eqn:Hx; simpl; [rewrite Hx, IH|]; auto.
Qed.

Lemma list_sum_perm (l l' : list nat) :
  Permutation l l' -> list_sum l = list_sum l'.
Proof.
  induction 1; simpl; lia.
Qed.

Lemma list_sum_map_add {A : Type} (f g : A -> nat) (u : list A) :
  list_sum (map (fun k => (f k + g k)%nat) u)
  = (list_sum (map f u) + list_sum (map g u))%nat.
Proof.
  induction u as [|y u IH]; simpl; [reflexivity|]. rewrite IH. lia.
Qed.

Lemma sum_counts_map {A : Type} (f : A -> nat) (u : list A) :
  sum_counts (map (fun k => (k, f k)) u) = list_sum (map f u).
Proof.
  induction u as [|y u IH]; simpl; [reflexivity|]. now rewrite IH.
Qed.

Section SeriesFacts.

Context {K : Type}.
Variable eqb : K -> K -> bool.
Variable leb : K -> K -> bool.
Hypothesis eqb_spec : forall x y, reflect (x = y) (eqb x y).

Lemma isin_In x l : isin eqb x l = true <-> In x l.
Proof.
  unfold isin. rewrite existsb_exists. split.
  - intros [y [Hy Hxy]]. now destruct (eqb_spec x y); subst.
  - intros H. exists x. split; [assumption|]. now destruct (eqb_spec x x).
Qed.

Lemma unique_In x l : In x (unique eqb l) <-> In x l.
Proof using eqb eqb_spec.
  clear leb.
  induction l as [|y r IH]; simpl; [tauto|].
  rewrite filter_In, IH. destruct (eqb_spec y x); simpl; intuition congruence.
Qed.

Lemma unique_NoDup l : NoDup (unique eqb l).
Proof.
  induction l as [|y r IH]; simpl; constructor.
  - rewrite filter_In. intros [_ H]. now destruct (eqb_spec y y).
  - now apply NoDup_filter.
Qed.

Lemma insert_sorted_perm k l : Permutation (insert_sorted leb k l) (k :: l).
Proof.
  induction l as [|x r IH]; simpl; [reflexivity|].
  destruct (leb k x); [reflexivity|].
  rewrite IH. apply perm_swap.
Qed.

Lemma sort_keys_perm l : Permutation (sort_keys leb l) l.
Proof.
  induction l as [|x r IH]; simpl; [constructor|].
  rewrite insert_sorted_perm. now constructor.
Qed.

Lemma count_cons k x l :
  count eqb k (x :: l) = ((if eqb k x then 1 else 0) + count eqb k l)%nat.
Proof. unfold count. simpl. now destruct (eqb k x). Qed.

Lemma count_pos k l : In k l -> (0 < count eqb k l)%nat.
Proof using eqb eqb_spec.
  clear leb.
  induction l as [|x r IH]; simpl; [tauto|]. rewrite count_cons.
  intros [->|H].
  - destruct (eqb_spec k k); [lia | congruence].
  - specialize (IH H). lia.
Qed.

Lemma count_filter k l : count eqb k l = List.length (filter (fun x => eqb x k) l).
Proof.
  unfold count. induction l as [|x r IH]; simpl; [reflexivity|].
  destruct (eqb_spec k x) as [->|Hn].
  - destruct (eqb_spec x x); [simpl; now rewrite IH | congruence].
  - destruct (eqb_spec x k); [congruence | assumption].
Qed.

(** One key of a duplicate-free list answers to [x], or none does. *)
Lemma indicator_sum x u :
  NoDup u ->
  list_sum (map (fun k => if eqb k x then 1 else 0)%nat u)
  = (if isin eqb x u then 1 else 0)%nat.
Proof.
  induction 1 as [|y u Hy Hu IH]; simpl; [reflexivity|].
  rewrite IH. destruct (eqb_spec y x) as [->|Hn].
  - destruct (eqb_spec x x); [|congruence]. simpl.
    destruct (isin eqb x u) eqn:Hin; [|reflexivity].
    apply isin_In in Hin. contradiction.
  - destruct (eqb_spec x y); [congruence|]. reflexivity.
Qed.

Lemma count_sum u :
  NoDup u ->
  forall keys, (forall k, In k keys -> In k u) ->
  list_sum (map (fun k => count eqb k keys) u) = List.length keys.
Proof.
  intros Hu. induction keys as [|x r IH]; intros Hin.
  - unfold count. simpl. clear. induction u; simpl; auto.
  - assert (Hx : isin eqb x u = true) by (apply isin_In, Hin; now left).
    assert (Hr : forall k, In k r -> In k u) by (intros k Hk; apply Hin; now right).
    specialize (IH Hr). simpl. rewrite <- IH.
    rewrite (map_ext _ (fun k => ((if eqb k x then 1 else 0) + count eqb k r)%nat))
      by (intros k; apply count_cons).
    now rewrite list_sum_map_add, (indicator_sum x u Hu), Hx.
Qed.

Lemma groupby_size_keys keys :
  map fst (groupby_size eqb leb keys) = sort_keys leb (unique eqb keys).
Proof.
  unfold groupby_size. rewrite map_map. simpl. apply map_id.
Qed.

Lemma groupby_size_sum keys :
  sum_counts (groupby_size eqb leb keys) = List.length keys.
Proof.
  unfold groupby_size.
  transitivity (list_sum (map (fun k => count eqb k keys) (sort_keys leb (unique eqb keys)))).
  { apply sum_counts_map. }
  rewrite (list_sum_perm _ (map (fun k => count eqb k keys) (unique eqb keys)))
    by (apply Permutation_map, sort_keys_perm).
  apply count_sum; [apply unique_NoDup|].
  intros k Hk. now apply unique_In.
Qed.

Lemma groupby_size_In k n keys :
  In (k, n) (groupby_size eqb leb keys) <->
  In k keys /\ n = count eqb k keys.
Proof.
  unfold groupby_size. rewrite in_map_iff. split.
  - intros [k' [Heq Hk]]. inversion Heq; subst k' n.
    apply (Permutation_in _ (sort_keys_perm _)) in Hk.
    apply (proj1 (unique_In _ _)) in Hk. now split.
  - intros [Hk ->]. exists k. split; [reflexivity|].
    apply (Permutation_in _ (Permutation_sym (sort_keys_perm _))).
    now apply unique_In.
Qed.

Lemma groupby_size_NoDup keys : NoDup (map fst (groupby_size eqb leb keys)).
Proof.
  rewrite groupby_size_keys.
  apply (Permutation_NoDup (Permutation_sym (sort_keys_perm _))), unique_NoDup.
Qed.

End SeriesFacts.

(* ================================================================== *)
(** * Properties of the parser *)
(* ================================================================== *)

Example sample_book_loads :
  load_excel to_datetime_stamps str_stamp_plain sample_book = Py.Ok sample_table.
Proof. vm_compute. reflexivity. Qed.

(** C3.  [to_seconds] returns on every string and never raises.  On a
    string of three components separated by colons, each one an integer
    literal, it returns hours * 3600 + minutes * 60 + seconds; in
    particular on three runs of decimal digits.  On a string that does not
    split into exactly three components, or that has a component which is
    not an integer literal, it returns the null value; so it does on the
    empty string and on a missing cell. *)
Theorem to_seconds_total_exact :
  (forall x, exists v, to_seconds x = Py.Ok v) /\
  (forall a b c h m s,
      has_char ":" a = false -> has_char ":" b = false -> has_char ":" c = false ->
      Py.int_literal a = Some h -> Py.int_literal b = Some m ->
      Py.int_literal c = Some s ->
      to_seconds (a ++ ":" ++ b ++ ":" ++ c)%string
      = Py.Ok (Some (h * 3600 + m * 60 + s))) /\
  (forall dh dm ds,
      dh <> Decimal.Nil -> dm <> Decimal.Nil -> ds <> Decimal.Nil ->
      to_seconds (digits dh ++ ":" ++ digits dm ++ ":" ++ digits ds)%string
      = Py.Ok (Some (Z.of_uint dh * 3600 + Z.of_uint dm * 60 + Z.of_uint ds))) /\
  (forall x, List.length (Py.split_colon x) <> 3%nat -> to_seconds x = Py.Ok None) /\
  (forall x t, In t (Py.split_colon x) -> Py.int_literal t = None ->
               to_seconds x = Py.Ok None) /\
  to_seconds "" = Py.Ok None /\
  (forall str_stamp, to_seconds (cell_str str_stamp CNull) = Py.Ok None).
Proof.
  assert (Hhms : forall a b c h m s,
      has_char ":" a = false -> has_char ":" b = false -> has_char ":" c = false ->
      Py.int_literal a = Some h -> Py.int_literal b = Some m ->
      Py.int_literal c = Some s ->
      to_seconds (a ++ ":" ++ b ++ ":" ++ c)%string
      = Py.Ok (Some (h * 3600 + m * 60 + s))).
  { intros a b c h m s Ha Hb Hc Hh Hm Hs.
    rewrite to_seconds_eq, (split_colon_hms _ _ _ Ha Hb Hc).
    unfold hms_value. now rewrite Hh, Hm, Hs. }
  repeat split.
  - intros x. rewrite to_seconds_eq. eexists. reflexivity.
  - exact Hhms.
  - intros dh dm ds Hh Hm Hs.
    apply Hhms; try (apply digits_no_char; reflexivity);
      now apply int_literal_digits.
  - intros x Hlen. rewrite to_seconds_eq.
    destruct (Py.split_colon x) as [|a [|b [|c [|d l]]]]; try reflexivity.
    now elim Hlen.
  - intros x t Hin Ht. rewrite to_seconds_eq.
    destruct (Py.split_colon x) as [|a [|b [|c [|d l]]]]; try reflexivity.
    unfold hms_value. simpl in Hin.
    destruct Hin as [<-|[<-|[<-|[]]]]; rewrite Ht;
      repeat match goal with
             | |- context [match Py.int_literal ?u with _ => _ end] =>
                 destruct (Py.int_literal u)
             end; reflexivity.
Qed.

Lemma to_seconds_total_exact_witness :
  Py.int_literal "01" = Some 1 /\ Py.int_literal "30" = Some 30 /\
  to_seconds "01:30:00" = Py.Ok (Some 5400).
Proof.
  split; [reflexivity|]. split; [reflexivity|].
  exact (proj1 (proj2 to_seconds_total_exact) "01" "30" "00" 1 30 0
           eq_refl eq_refl eq_refl eq_refl eq_refl eq_refl).
Defined.

(** A duration with a minus sign: the row of [sample_book] that reads
    "-1:0:0" is loaded with a negative number of seconds. *)
Lemma negative_duration_loaded :
  load_excel to_datetime_stamps str_stamp_plain sample_book = Py.Ok sample_table /\
  exists r, In r sample_table /\ duration_sec r = Some (-3600) /\ ~ 0 <= -3600.
Proof.
  split; [exact sample_book_loads|].
  exists (nth 1 sample_table (call "" None None DNull)).
  split; [right; left; reflexivity|]. split; [reflexivity | lia].
Qed.

(** C6, in the form the code satisfies.  For every row of the table [load_excel] returns, a
    [duration_sec] that is not null is the integer
    hours * 3600 + minutes * 60 + seconds of the three components of the
    row's duration string, and it is non-negative whenever that string has
    no minus sign. *)
Theorem duration_sec_integer_sign
  (to_datetime : list Cell -> list (option Z)) (str_stamp : Z -> string)
  (xls : list Sheet) (df : list CallRecord) (r : CallRecord) (v : Z) :
  load_excel to_datetime str_stamp xls = Py.Ok df ->
  In r df ->
  duration_sec r = Some v ->
  (exists a b c h m s,
      Py.split_colon (cell_str str_stamp (duration_str r)) = [a; b; c] /\
      Py.int_literal a = Some h /\ Py.int_literal b = Some m /\
      Py.int_literal c = Some s /\ v = h * 3600 + m * 60 + s) /\
  (has_char "-" (cell_str str_stamp (duration_str r)) = false -> 0 <= v).
Proof.
  intros Hload Hr Hv.
  pose proof (load_excel_durations _ _ _ _ _ Hload Hr) as Hd.
  rewrite to_seconds_eq, Hv in Hd. injection Hd as Hd.
  destruct (Py.split_colon (cell_str str_stamp (duration_str r)))
    as [|a [|b [|c [|d l]]]] eqn:Hs; try discriminate Hd.
  unfold hms_value in Hd.
  destruct (Py.int_literal a) as [h|] eqn:Ha; [|discriminate].
  destruct (Py.int_literal b) as [m|] eqn:Hb; [|discriminate].
  destruct (Py.int_literal c) as [s|] eqn:Hc; [|discriminate].
  injection Hd as <-. split.
  - exists a, b, c, h, m, s. repeat split; assumption.
  - intros Hminus.
    assert (Hno : forall t, In t [a; b; c] -> has_char "-" t = false).
    { intros t Ht. rewrite <- Hs in Ht.
      destruct (has_char "-" t) eqn:E; [|reflexivity].
      rewrite (split_colon_chars _ _ _ Ht E) in Hminus. discriminate. }
    pose proof (int_literal_nonneg _ _ Ha (Hno a (or_introl eq_refl))).
    pose proof (int_literal_nonneg _ _ Hb (Hno b (or_intror (or_introl eq_refl)))).
    pose proof (int_literal_nonneg _ _ Hc
                  (Hno c (or_intror (or_intror (or_introl eq_refl))))).
    lia.
Qed.

Lemma duration_sec_integer_sign_witness :
  load_excel to_datetime_stamps str_stamp_plain sample_book = Py.Ok sample_table /\
  0 <= 100.
Proof.
  split; [exact sample_book_loads|].
  exact (proj2 (duration_sec_integer_sign to_datetime_stamps str_stamp_plain
                  sample_book sample_table
                  (nth 0 sample_table (call "" None None DNull)) 100
                  sample_book_loads (or_introl eq_refl) eq_refl) eq_refl).
Defined.

(* ================================================================== *)
(** * Properties of the loader *)
(* ================================================================== *)

Lemma to_datetime_stamps_length col :
  List.length (to_datetime_stamps col) = List.length col.
Proof. apply length_map. Qed.

(** C4.  In the table [load_excel] returns, the [date] column is the
    sequence of the [date] columns of the sheets.  A sheet without a
    start column gives every one of its rows the sheet's name.  A sheet
    with a start column gives each row the calendar date of its parsed
    start, and the null marker where the start does not parse: never the
    sheet's name, nor any other label. *)
Theorem date_column_rule
  (to_datetime : list Cell -> list (option Z))
  (to_datetime_length :
     forall col, List.length (to_datetime col) = List.length col)
  (str_stamp : Z -> string) (xls : list Sheet) (df : list CallRecord) :
  load_excel to_datetime str_stamp xls = Py.Ok df ->
  map date df = flat_map (fun sh => f_date (read_sheet to_datetime sh)) xls /\
  forall sh, In sh xls ->
    let f := read_sheet to_datetime sh in
    List.length (f_date f) = List.length (f_rows f) /\
    (has_column "start" (f_columns f) = false ->
     f_date f = repeat (DLabel (sheet_name sh)) (List.length (f_rows f))) /\
    (has_column "start" (f_columns f) = true ->
     (forall i,
         nth i (f_date f) DNull
         = date_of_stamp (nth i (to_datetime (frame_column "start" f)) None)) /\
     (forall i,
         nth i (to_datetime (frame_column "start" f)) None = None ->
         nth i (f_date f) DNull = DNull) /\
     (forall d name, In d (f_date f) -> d <> DLabel name)).
Proof.
  intros Hload. split; [now apply (load_excel_dates _ to_datetime_length str_stamp)|].
  intros sh _ f. split; [apply f_date_length, to_datetime_length|].
  subst f. unfold read_sheet, frame_column. cbn [f_date f_rows f_columns].
  destruct (has_column "start" (map rename_column (columns sh))).
  - split; [discriminate|]. intros _.
    assert (Hnth : forall i,
      nth i (map date_of_stamp
               (to_datetime
                  (map (fun row => cell_at (map rename_column (columns sh)) row "start")
                       (dropna_all (rows sh))))) DNull
      = date_of_stamp
          (nth i (to_datetime
                    (map (fun row => cell_at (map rename_column (columns sh)) row "start")
                         (dropna_all (rows sh)))) None)).
    { intros i. exact (map_nth date_of_stamp _ None i). }
    split; [exact Hnth|]. split.
    + intros i Hi. now rewrite Hnth, Hi.
    + intros d name Hd ->. apply in_map_iff in Hd as [t [Ht _]].
      destruct t; discriminate.
  - split; [|discriminate]. intros _.
    induction (dropna_all (rows sh)) as [|row rs IH]; simpl; [reflexivity|].
    now rewrite IH.
Qed.

Lemma date_column_rule_witness :
  load_excel to_datetime_stamps str_stamp_plain sample_book = Py.Ok sample_table /\
  map date sample_table = [DDay 19793; DNull; DLabel "Notes"].
Proof.
  split; [exact sample_book_loads|].
  exact (proj1 (date_column_rule to_datetime_stamps to_datetime_stamps_length
                  str_stamp_plain sample_book sample_table sample_book_loads)).
Defined.

(* ================================================================== *)
(** * Properties of the filters *)
(* ================================================================== *)

Lemma cell_eqb_spec x y : reflect (x = y) (cell_eqb x y).
Proof.
  destruct x as [|s|t], y as [|s'|t']; simpl; try (constructor; congruence).
  - destruct (String.eqb_spec s s'); constructor; congruence.
  - destruct (Z.eqb_spec t t'); constructor; congruence.
Qed.

Lemma filtered_df_filter df af dfl :
  filtered_df df af dfl = filter (keep af dfl) df.
Proof.
  unfold filtered_df. rewrite !map_map, mask_and_map. apply select_mask.
Qed.

Lemma options_In c col : In c (options col) <-> In c col /\ notna c = true.
Proof.
  unfold options.
  split.
  - intros H. apply (proj1 (unique_In cell_eqb cell_eqb_spec _ _)) in H.
    now apply filter_In in H.
  - intros H. apply (proj2 (unique_In cell_eqb cell_eqb_spec _ _)).
    now apply filter_In.
Qed.

Lemma isin_options c col :
  In c col -> isin cell_eqb c (options col) = notna c.
Proof.
  intros Hc. destruct (notna c) eqn:Hn.
  - apply (isin_In cell_eqb cell_eqb_spec), options_In. now split.
  - destruct (isin cell_eqb c (options col)) eqn:Hi; [|reflexivity].
    apply (isin_In cell_eqb cell_eqb_spec), options_In in Hi. destruct Hi. congruence.
Qed.

(** C7.  The filtered table is the input with exactly the rows kept whose
    [assigned_to] is among the selected users and whose [direction] is
    among the selected directions, in input order.  A row with a null in
    one of the two columns is kept only if the null itself is among the
    selected values of that column.  The default selections, the distinct
    values present, contain no null; under them the rows kept are those
    with both columns filled. *)
Theorem filtered_df_exact (df : list CallRecord) (af dfl : list Cell) :
  filtered_df df af dfl = filter (keep af dfl) df /\
  (forall r, In r (filtered_df df af dfl) <->
             In r df /\ In (assigned_to r) af /\ In (direction r) dfl) /\
  (forall r, In r (filtered_df df af dfl) ->
             (assigned_to r = CNull -> In CNull af) /\
             (direction r = CNull -> In CNull dfl)) /\
  ~ In CNull (assigned_options df) /\
  ~ In CNull (direction_options df) /\
  filtered_df df (assigned_options df) (direction_options df)
  = filter both_notna df.
Proof.
  assert (Hin : forall r, In r (filtered_df df af dfl) <->
             In r df /\ In (assigned_to r) af /\ In (direction r) dfl).
  { intros r. rewrite filtered_df_filter, filter_In. unfold keep.
    rewrite andb_true_iff, !(isin_In cell_eqb cell_eqb_spec). tauto. }
  split; [apply filtered_df_filter|]. split; [exact Hin|]. split.
  { intros r Hr. apply Hin in Hr as [_ [Ha Hd]].
    split; intros E; now rewrite E in *. }
  split; [intros H; apply options_In in H; now destruct H|].
  split; [intros H; apply options_In in H; now destruct H|].
  rewrite filtered_df_filter. apply filter_ext_in. intros r Hr.
  unfold keep, both_notna, assigned_options, direction_options.
  rewrite !isin_options; [reflexivity| |]; now apply in_map.
Qed.

Lemma filtered_df_exact_witness :
  filtered_df sample_table [CText "ann"] [CText "Incoming"]
  = [nth 0 sample_table (call "" None None DNull)].
Proof.
  exact (proj1 (filtered_df_exact sample_table [CText "ann"] [CText "Incoming"])).
Defined.

(** C8.  Filtering the filtered table again with the same selections
    changes nothing. *)
Theorem filtered_df_idempotent (df : list CallRecord) (af dfl : list Cell) :
  filtered_df (filtered_df df af dfl) af dfl = filtered_df df af dfl.
Proof.
  rewrite !filtered_df_filter. apply filter_idem.
Qed.

(* ================================================================== *)
(** * Properties of the KPIs *)
(* ================================================================== *)

(** C9.  On the empty table the three KPIs are 0, 0 and 0; more generally
    a table with no row has an average of 0, the quotient by the zero
    count being replaced by 0. *)
Theorem kpis_empty :
  total_calls [] = 0%nat /\
  total_duration [] = Fin 0 /\
  avg_duration [] = Fin 0 /\
  (forall af dfl, filtered_df [] af dfl = []) /\
  (forall fdf, total_calls fdf = 0%nat ->
               total_duration fdf = Fin 0 /\ avg_duration fdf = Fin 0).
Proof.
  repeat split; try reflexivity;
    destruct fdf; try discriminate; reflexivity.
Qed.

Lemma kpis_empty_witness :
  total_calls (filtered_df sample_table [] []) = 0%nat /\
  avg_duration (filtered_df sample_table [] []) = Fin 0.
Proof.
  split; [reflexivity|].
  exact (proj2 (proj2 (proj2 (proj2 (proj2 kpis_empty)))
                  (filtered_df sample_table [] []) eq_refl)).
Defined.

Lemma series_sum_present col : series_sum col = fold_right Z.add 0 (present col).
Proof.
  induction col as [|[z|] r IH]; simpl; [reflexivity | now rewrite IH | exact IH].
Qed.

Lemma series_count_present col : series_count col = List.length (present col).
Proof.
  unfold series_count.
  induction col as [|[z|] r IH]; simpl; [reflexivity | now rewrite IH | exact IH].
Qed.

(** The average of [one_null_duration] is two minutes, the 120 seconds of
    the one duration present; over both rows it would be one minute. *)
Lemma avg_duration_skips_null_rows :
  (0 < total_calls one_null_duration)%nat /\
  avg_duration one_null_duration = Fin 2 /\
  avg_over_all_rows one_null_duration = Fin 1 /\
  avg_duration one_null_duration <> avg_over_all_rows one_null_duration.
Proof.
  repeat split; try reflexivity; try (vm_compute; lia).
  vm_compute. discriminate.
Qed.

(** C1, in the form the code satisfies.  For every table with at least one duration present, the
    average is the sum of the durations present divided by the number of
    durations present, in minutes: rows with a missing duration count
    neither in the sum nor in the divisor. *)
Theorem avg_duration_over_present (fdf : list CallRecord) :
  present (map duration_sec fdf) <> [] ->
  exists q,
    avg_duration fdf = Fin q /\
    (q == inject_Z (fold_right Z.add 0%Z (present (map duration_sec fdf)))
          / inject_Z (Z.of_nat (List.length (present (map duration_sec fdf))))
          / inject_Z 60)%Q.
Proof.
  intros Hp. unfold avg_duration, total_calls.
  destruct fdf as [|r fdf]; [now elim Hp|].
  cbn [List.length Nat.ltb Nat.leb].
  remember (map duration_sec (r :: fdf)) as col.
  unfold series_mean. rewrite series_count_present, series_sum_present.
  destruct (present col) as [|z zs] eqn:Hz; [now elim Hp|].
  cbn [List.length div_by]. eexists. split; [reflexivity|].
  rewrite Qred_correct. now rewrite Qred_correct.
Qed.

Lemma avg_duration_over_present_witness :
  present (map duration_sec one_null_duration) <> [] /\
  exists q, avg_duration one_null_duration = Fin q /\
            (q == inject_Z 120 / inject_Z 1 / inject_Z 60)%Q.
Proof.
  split; [discriminate|].
  exact (avg_duration_over_present one_null_duration
           (fun H : present (map duration_sec one_null_duration) = [] =>
              @eq_ind (list Z) [120]
                (fun l => match l with [] => False | _ => True end) I [] H)).
Defined.

(* ================================================================== *)
(** * Properties of the half-hour slots *)
(* ================================================================== *)

Lemma strftime_day_shift d c :
  strftime_I_M_p (d * ns_per_day + c) = strftime_I_M_p c.
Proof.
  unfold strftime_I_M_p, hour_of, minute_of.
  replace ((d * ns_per_day + c) / ns_per_hour) with (c / ns_per_hour + d * 24).
  2:{ replace (d * ns_per_day + c) with (c + (d * 24) * ns_per_hour)
        by (unfold ns_per_day; ring).
      apply eq_sym, Z.div_add. discriminate. }
  replace ((d * ns_per_day + c) / ns_per_minute)
    with (c / ns_per_minute + (d * 24) * 60).
  2:{ replace (d * ns_per_day + c) with (c + (d * 24 * 60) * ns_per_minute)
        by (unfold ns_per_day, ns_per_hour; ring).
      apply eq_sym, Z.div_add. discriminate. }
  now rewrite !Z_mod_plus_full.
Qed.

Lemma date_range_day_shift d a b f :
  date_range (d * ns_per_day + a) (d * ns_per_day + b) f
  = map (fun t => d * ns_per_day + t) (date_range a b f).
Proof.
  unfold date_range. rewrite map_map.
  replace (d * ns_per_day + b - (d * ns_per_day + a)) with (b - a) by ring.
  apply map_ext. intros k. ring.
Qed.

(** Whatever the day, the labels are the nineteen from 09:30 to 18:30. *)
Lemma valid_hours_eq today : valid_hours today = business_slots.
Proof.
  unfold valid_hours.
  replace (today * ns_per_day + 9 * ns_per_hour + 30 * ns_per_minute)
    with (today * ns_per_day + (9 * ns_per_hour + 30 * ns_per_minute)) by ring.
  replace (today * ns_per_day + 18 * ns_per_hour + 30 * ns_per_minute)
    with (today * ns_per_day + (18 * ns_per_hour + 30 * ns_per_minute)) by ring.
  rewrite date_range_day_shift, map_map.
  rewrite (map_ext _ strftime_I_M_p) by (intros t; apply strftime_day_shift).
  vm_compute. reflexivity.
Qed.

Lemma df_hour_filter today fdf :
  df_hour today fdf
  = filter (fun r => slot_isin (hour_slot r) (valid_hours today)) fdf.
Proof. apply select_mask. Qed.

Lemma slot_keys_In l df :
  In l (slot_keys df) <-> exists r, In r df /\ hour_slot r = Some l.
Proof.
  unfold slot_keys. rewrite in_flat_map. split.
  - intros [r [Hr Hl]]. exists r. split; [assumption|].
    destruct (hour_slot r); simpl in Hl; [|tauto].
    destruct Hl as [->|[]]. reflexivity.
  - intros [r [Hr Hl]]. exists r. split; [assumption|]. rewrite Hl. now left.
Qed.

Lemma slot_keys_cons r df :
  slot_keys (r :: df)
  = match hour_slot r with Some l => l :: slot_keys df | None => slot_keys df end.
Proof. unfold slot_keys. cbn [flat_map]. now destruct (hour_slot r). Qed.

Lemma slot_keys_kept_length values fdf :
  List.length (slot_keys (filter (fun r => slot_isin (hour_slot r) values) fdf))
  = List.length (filter (fun r => slot_isin (hour_slot r) values) fdf).
Proof.
  induction fdf as [|r rs IH]; cbn [filter]; [reflexivity|].
  destruct (slot_isin (hour_slot r) values) eqn:Hv; [|exact IH].
  rewrite slot_keys_cons. destruct (hour_slot r); [|discriminate Hv].
  cbn [List.length]. now rewrite IH.
Qed.

Lemma slot_keys_kept_count values l fdf :
  In l values ->
  count String.eqb l
        (slot_keys (filter (fun r => slot_isin (hour_slot r) values) fdf))
  = List.length (filter (slot_is l) fdf).
Proof.
  intros Hl. rewrite (count_filter String.eqb String.eqb_spec).
  induction fdf as [|r rs IH]; cbn [filter]; [reflexivity|].
  unfold slot_is at 1, slot_isin at 1.
  destruct (hour_slot r) as [l'|] eqn:Hs; [|exact IH].
  destruct (isin String.eqb l' values) eqn:Hv.
  - rewrite slot_keys_cons, Hs. cbn [filter].
    destruct (String.eqb l' l); cbn [List.length]; now rewrite <- IH.
  - destruct (String.eqb_spec l' l) as [->|Hn]; [|exact IH].
    apply (isin_In String.eqb String.eqb_spec) in Hl. congruence.
Qed.

(** On [two_slots] the result has two rows, the afternoon slot first. *)
Lemma calls_by_hour_two_rows :
  calls_by_hour 19793 two_slots = [("01:00 PM", 1%nat); ("10:00 AM", 1%nat)] /\
  List.length (calls_by_hour 19793 two_slots) <> 19%nat /\
  map fst (calls_by_hour 19793 two_slots) <> business_slots.
Proof.
  assert (H : calls_by_hour 19793 two_slots
              = [("01:00 PM", 1%nat); ("10:00 AM", 1%nat)])
    by (vm_compute; reflexivity).
  rewrite H. repeat split; discriminate.
Qed.

(** C2, in the form the code satisfies.  Whatever the day, the slot set is the nineteen labels
    09:30 AM ... 06:30 PM.  [calls_by_hour] has one row for each slot of
    that set in which at least one call starts and no row for the others:
    at most nineteen rows, no slot twice, each with the number of calls
    starting in the slot, which is positive.  The counts add up to the
    number of input rows whose start floors to a slot of the set. *)
Theorem calls_by_hour_observed_slots (today : Z) (fdf : list CallRecord) :
  valid_hours today = business_slots /\
  List.length business_slots = 19%nat /\
  NoDup (map fst (calls_by_hour today fdf)) /\
  (forall l, In l (map fst (calls_by_hour today fdf)) <->
             In l business_slots /\ exists r, In r fdf /\ hour_slot r = Some l) /\
  (forall l n, In (l, n) (calls_by_hour today fdf) ->
               (0 < n)%nat /\ n = List.length (filter (slot_is l) fdf)) /\
  (List.length (calls_by_hour today fdf) <= 19)%nat /\
  sum_counts (calls_by_hour today fdf)
  = List.length (filter (fun r => slot_isin (hour_slot r) business_slots) fdf).
Proof.
  assert (Hkeys : forall l, In l (slot_keys (df_hour today fdf)) <->
             In l business_slots /\ exists r, In r fdf /\ hour_slot r = Some l).
  { intros l. rewrite slot_keys_In, df_hour_filter, valid_hours_eq. split.
    - intros [r [Hr Hl]]. apply filter_In in Hr as [Hr Hv].
      rewrite Hl in Hv. cbn [slot_isin] in Hv.
      apply (isin_In String.eqb String.eqb_spec) in Hv. split; [assumption|].
      now exists r.
    - intros [Hv [r [Hr Hl]]]. exists r. split; [|assumption].
      apply filter_In. split; [assumption|]. rewrite Hl. cbn [slot_isin].
      now apply (isin_In String.eqb String.eqb_spec). }
  assert (Hfst : forall l, In l (map fst (calls_by_hour today fdf)) <->
             In l (slot_keys (df_hour today fdf))).
  { intros l. unfold calls_by_hour. rewrite groupby_size_keys. split; intros H.
    - apply (proj1 (unique_In String.eqb String.eqb_spec _ _)).
      apply (Permutation_in _ (sort_keys_perm _ _) H).
    - apply (Permutation_in _ (Permutation_sym (sort_keys_perm _ _))).
      now apply (unique_In String.eqb String.eqb_spec). }
  assert (Hnodup : NoDup (map fst (calls_by_hour today fdf)))
    by apply (groupby_size_NoDup String.eqb String.leb String.eqb_spec).
  split; [apply valid_hours_eq|]. split; [reflexivity|].
  split; [exact Hnodup|].
  split; [intros l; now rewrite Hfst|]. split; [|split].
  - intros l n Hin. unfold calls_by_hour in Hin.
    apply (groupby_size_In String.eqb String.leb String.eqb_spec) in Hin
      as [Hl ->].
    split; [now apply (count_pos String.eqb String.eqb_spec)|].
    rewrite df_hour_filter. apply slot_keys_kept_count.
    apply Hkeys in Hl as [Hl _]. now rewrite valid_hours_eq.
  - rewrite <- (length_map fst).
    change 19%nat with (List.length business_slots).
    apply NoDup_incl_length; [exact Hnodup|].
    intros l Hl. now apply Hfst, Hkeys in Hl.
  - unfold calls_by_hour.
    rewrite (groupby_size_sum String.eqb String.leb String.eqb_spec).
    rewrite df_hour_filter, valid_hours_eq. apply slot_keys_kept_length.
Qed.

Lemma calls_by_hour_observed_slots_witness :
  In ("10:00 AM", 1%nat) (calls_by_hour 19793 two_slots) /\
  (0 < 1)%nat /\ 1%nat = List.length (filter (slot_is "10:00 AM") two_slots).
Proof.
  split; [right; left; reflexivity|].
  exact (proj1 (proj2 (proj2 (proj2 (proj2
           (calls_by_hour_observed_slots 19793 two_slots)))))
           "10:00 AM" 1%nat (or_intror (or_introl eq_refl))).
Defined.

(* ================================================================== *)
(** * Properties of the calls per day *)
(* ================================================================== *)

Lemma date_eqb_spec x y : reflect (x = y) (date_eqb x y).
Proof.
  destruct x as [|d|s], y as [|d'|s']; simpl; try (constructor; congruence).
  - destruct (Z.eqb_spec d d'); constructor; congruence.
  - destruct (String.eqb_spec s s'); constructor; congruence.
Qed.

Lemma filter_map_length {A B : Type} (f : A -> B) (p : B -> bool) (l : list A) :
  List.length (filter p (map f l)) = List.length (filter (fun x => p (f x)) l).
Proof.
  induction l as [|x r IH]; simpl; [reflexivity|].
  destruct (p (f x)); simpl; now rewrite IH.
Qed.

(** C10.  The rows of [calls_per_day] never carry the null date, and
    their counts add up to the number of rows whose date is not null,
    which is at most the number of rows.  It can be less: the table loaded
    from [sample_book] has three rows, one of them with a start that did
    not parse in a sheet that has a start column, and its counts add up
    to two. *)
Theorem calls_per_day_drops_null_dates :
  (forall fdf,
      sum_counts (calls_per_day fdf)
      = List.length (filter (fun r => date_notna (date r)) fdf) /\
      (sum_counts (calls_per_day fdf) <= total_calls fdf)%nat /\
      (forall n, ~ In (DNull, n) (calls_per_day fdf))) /\
  load_excel to_datetime_stamps str_stamp_plain sample_book = Py.Ok sample_table /\
  calls_per_day sample_table = [(DDay 19793, 1%nat); (DLabel "Notes", 1%nat)] /\
  (sum_counts (calls_per_day sample_table) < total_calls sample_table)%nat.
Proof.
  split.
  - intros fdf.
    assert (Hsum : sum_counts (calls_per_day fdf)
                   = List.length (filter (fun r => date_notna (date r)) fdf)).
    { unfold calls_per_day.
      rewrite (groupby_size_sum date_eqb date_leb date_eqb_spec).
      apply filter_map_length. }
    split; [exact Hsum|]. split.
    + rewrite Hsum. apply filter_length_le.
    + intros n Hin. unfold calls_per_day in Hin.
      apply (groupby_size_In date_eqb date_leb date_eqb_spec) in Hin as [Hin _].
      apply filter_In in Hin as [_ Hn]. discriminate Hn.
  - split; [exact sample_book_loads|].
    split; [vm_compute; reflexivity|]. vm_compute. lia.
Qed.

(* ================================================================== *)
(** * Properties of the longest calls *)
(* ================================================================== *)

Lemma dur_geb_spec a b : reflect (dur_ge a b) (dur_geb a b).
Proof.
  destruct a as [x|], b as [y|]; simpl; try (constructor; tauto).
  destruct (y <=? x) eqn:E; constructor;
    [apply Z.leb_le in E | apply Z.leb_gt in E]; lia.
Qed.

Lemma dur_ge_total a b : dur_geb a b = false -> dur_ge b a.
Proof.
  destruct a as [x|], b as [y|]; simpl; try discriminate; try tauto.
  intros H. apply Z.leb_gt in H. lia.
Qed.

Lemma dur_ge_trans a b c : dur_ge a b -> dur_ge b c -> dur_ge a c.
Proof.
  destruct a as [x|], b as [y|], c as [z|]; simpl; try tauto. lia.
Qed.

Lemma insert_desc_perm r l : Permutation (insert_desc r l) (r :: l).
Proof.
  induction l as [|x t IH]; simpl; [reflexivity|].
  destruct (dur_geb (duration_sec r) (duration_sec x)); [reflexivity|].
  rewrite IH. apply perm_swap.
Qed.

Lemma stable_sort_desc_perm df : Permutation df (stable_sort_desc df).
Proof.
  induction df as [|r rs IH]; simpl; [constructor|].
  rewrite insert_desc_perm. now constructor.
Qed.

Lemma insert_desc_sorted r l :
  StronglySorted rec_ge l -> StronglySorted rec_ge (insert_desc r l).
Proof.
  induction 1 as [|x t Ht IH Hx]; simpl.
  - repeat constructor.
  - destruct (dur_geb_spec (duration_sec r) (duration_sec x)) as [Hge|Hlt].
    + constructor; [now constructor|].
      constructor; [exact Hge|].
      apply Forall_forall. intros y Hy.
      rewrite Forall_forall in Hx.
      exact (dur_ge_trans _ _ _ Hge (Hx y Hy)).
    + constructor; [exact IH|].
      apply (Permutation_Forall (Permutation_sym (insert_desc_perm r t))).
      constructor; [|exact Hx].
      apply dur_ge_total.
      now destruct (dur_geb_spec (duration_sec r) (duration_sec x)).
Qed.

Lemma stable_sort_desc_sorted df : StronglySorted rec_ge (stable_sort_desc df).
Proof.
  induction df as [|r rs IH]; simpl; [constructor|].
  now apply insert_desc_sorted.
Qed.


Lemma same_duration_sorted v (l : list CallRecord) :
  Forall (fun r => duration_sec r = Some v) l -> StronglySorted rec_ge l.
Proof.
  induction 1 as [|x t Hx Ht IH]; constructor; [exact IH|].
  apply Forall_forall. intros y Hy. rewrite Forall_forall in Ht.
  unfold rec_ge. rewrite Hx, (Ht y Hy). simpl. lia.
Qed.

(** The reversed list of [tied_calls] is one of the arrangements the
    relation [sort_values_desc] admits. *)
Lemma tied_calls_reversed_admissible :
  top_longest tied_calls (head 5 (rev tied_calls)).
Proof.
  exists (rev tied_calls). split; [|reflexivity]. split.
  - apply Permutation_rev.
  - apply (same_duration_sorted 300).
    apply Forall_forall. intros r Hr. apply in_rev in Hr.
    unfold tied_calls in Hr. apply in_map_iff in Hr as [u [<- _]]. reflexivity.
Qed.




(* ================================================================== *)
(** * Further properties of the loader *)
(* ================================================================== *)

Lemma to_seconds_returns x : exists v, to_seconds x = Py.Ok v.
Proof. rewrite to_seconds_eq. eexists. reflexivity. Qed.

Lemma read_sheet_columns to_datetime xls :
  flat_map f_columns (map (read_sheet to_datetime) xls)
  = flat_map (fun sh => map rename_column (columns sh)) xls.
Proof.
  induction xls as [|sh r IH]; simpl; [reflexivity|]. now rewrite IH.
Qed.

Lemma read_sheet_rows_length to_datetime name xls :
  List.length (concat_column name (map (read_sheet to_datetime) xls))
  = list_sum (map (fun sh => List.length (dropna_all (rows sh))) xls).
Proof.
  unfold concat_column.
  induction xls as [|sh r IH]; simpl; [reflexivity|].
  rewrite length_app, IH. unfold frame_column. now rewrite length_map.
Qed.

Lemma string_eqb_false_sym (a b : string) : a <> b -> String.eqb b a = false.
Proof. intros H. apply String.eqb_neq. congruence. Qed.

Ltac rename_cases c :=
  unfold rename_column;
  destruct (String.eqb_spec c "Call Type") as [->|H1]; [reflexivity|];
  destruct (String.eqb_spec c "Call Start") as [->|H2]; [reflexivity|];
  destruct (String.eqb_spec c "Call End") as [->|H3]; [reflexivity|];
  destruct (String.eqb_spec c "Total Call Time (H:m:s)") as [->|H4]; [reflexivity|];
  destruct (String.eqb_spec c "Assigned User") as [->|H5]; [reflexivity|];
  rewrite ?(string_eqb_false_sym _ _ H1), ?(string_eqb_false_sym _ _ H2),
    ?(string_eqb_false_sym _ _ H3), ?(string_eqb_false_sym _ _ H4),
    ?(string_eqb_false_sym _ _ H5).

Lemma has_column_renamed raw canon cols :
  In (raw, canon)
     [("Call Type", "direction"); ("Call Start", "start"); ("Call End", "end");
      ("Total Call Time (H:m:s)", "duration_str"); ("Assigned User", "assigned_to")] ->
  has_column canon (map rename_column cols)
  = has_column raw cols || has_column canon cols.
Proof.
  intros Hin. unfold has_column.
  induction cols as [|c r IH]; [reflexivity|].
  cbn [map existsb]. rewrite IH.
  assert (Hc : String.eqb canon (rename_column c)
               = String.eqb raw c || String.eqb canon c).
  { simpl in Hin.
    destruct Hin as [E|[E|[E|[E|[E|[]]]]]]; injection E as <- <-;
      rename_cases c; reflexivity. }
  rewrite Hc.
  destruct (String.eqb raw c), (String.eqb canon c),
    (existsb (String.eqb raw) r), (existsb (String.eqb canon) r); reflexivity.
Qed.

Lemma has_column_flat_map {A : Type} (name : string) (f : A -> list string) l :
  has_column name (flat_map f l) = true ->
  exists x, In x l /\ has_column name (f x) = true.
Proof.
  unfold has_column. induction l as [|x r IH]; cbn [flat_map]; [discriminate|].
  rewrite existsb_app, orb_true_iff. intros [H|H].
  - exists x. split; [now left | exact H].
  - destruct (IH H) as [y [Hy Hc]]. exists y. split; [now right | exact Hc].
Qed.

(** X1.  [load_excel] returns a table only if the workbook has a sheet
    whose header names the duration column, as "Total Call Time (H:m:s)"
    or as "duration_str", a sheet whose header names the start column and
    a sheet whose header names the end column.  A workbook in which no
    sheet has a start column is therefore never loaded, although each of
    its sheets was given its name as date. *)
Theorem load_excel_needs_columns
  (to_datetime : list Cell -> list (option Z)) (str_stamp : Z -> string)
  (xls : list Sheet) (df : list CallRecord) :
  load_excel to_datetime str_stamp xls = Py.Ok df ->
  xls <> [] /\
  (exists sh, In sh xls /\
     has_column "Total Call Time (H:m:s)" (columns sh)
     || has_column "duration_str" (columns sh) = true) /\
  (exists sh, In sh xls /\
     has_column "Call Start" (columns sh) || has_column "start" (columns sh) = true) /\
  (exists sh, In sh xls /\
     has_column "Call End" (columns sh) || has_column "end" (columns sh) = true).
Proof.
  unfold load_excel. destruct xls as [|sh0 xls]; [discriminate|].
  rewrite read_sheet_columns.
  set (cols := flat_map (fun sh => map rename_column (columns sh)) (sh0 :: xls)).
  destruct (has_column "duration_str" cols) eqn:Hd; cbn [negb]; [|discriminate].
  destruct (Py.map_result to_seconds _) as [secs|e]; cbn [Py.bind]; [|discriminate].
  destruct (has_column "start" cols) eqn:Hs; cbn [negb]; [|discriminate].
  destruct (has_column "end" cols) eqn:He; cbn [negb]; [|discriminate].
  intros _. split; [discriminate|].
  assert (Hfind : forall raw canon,
             In (raw, canon)
                [("Call Type", "direction"); ("Call Start", "start");
                 ("Call End", "end");
                 ("Total Call Time (H:m:s)", "duration_str");
                 ("Assigned User", "assigned_to")] ->
             has_column canon cols = true ->
             exists sh, In sh (sh0 :: xls) /\
                        has_column raw (columns sh) || has_column canon (columns sh)
                        = true).
  { intros raw canon Hin Hc. apply has_column_flat_map in Hc as [sh [Hsh Hc]].
    exists sh. split; [exact Hsh|].
    now rewrite <- (has_column_renamed raw canon (columns sh) Hin). }
  split; [|split].
  - apply Hfind; [simpl; tauto | exact Hd].
  - apply Hfind; [simpl; tauto | exact Hs].
  - apply Hfind; [simpl; tauto | exact He].
Qed.

Lemma load_excel_needs_columns_witness :
  load_excel to_datetime_stamps str_stamp_plain sample_book = Py.Ok sample_table /\
  exists sh, In sh sample_book /\
    has_column "Call Start" (columns sh) || has_column "start" (columns sh) = true.
Proof.
  split; [exact sample_book_loads|].
  exact (proj1 (proj2 (proj2 (load_excel_needs_columns
                                to_datetime_stamps str_stamp_plain
                                sample_book sample_table sample_book_loads)))).
Defined.

(** X2.  The table [load_excel] returns has one row for each row of the
    sheets that is not entirely empty, no more and no fewer, and its
    [duration_str], [direction] and [assigned_to] columns are those of the
    sheets one after the other, in sheet order. *)
Theorem load_excel_rows
  (to_datetime : list Cell -> list (option Z)) (str_stamp : Z -> string)
  (xls : list Sheet) (df : list CallRecord) :
  load_excel to_datetime str_stamp xls = Py.Ok df ->
  List.length df
  = list_sum (map (fun sh => List.length (dropna_all (rows sh))) xls) /\
  (List.length df <= list_sum (map (fun sh => List.length (rows sh)) xls))%nat /\
  map duration_str df
  = concat_column "duration_str" (map (read_sheet to_datetime) xls) /\
  map direction df
  = concat_column "direction" (map (read_sheet to_datetime) xls) /\
  map assigned_to df
  = concat_column "assigned_to" (map (read_sheet to_datetime) xls).
Proof.
  intros H. destruct (load_excel_inv _ _ _ _ H) as [secs [_ ->]].
  assert (Hlen : forall name name',
             List.length (concat_column name (map (read_sheet to_datetime) xls))
             = List.length (concat_column name' (map (read_sheet to_datetime) xls))).
  { intros. now rewrite !read_sheet_rows_length. }
  split; [now rewrite length_map, length_seq, read_sheet_rows_length|].
  split.
  { rewrite length_map, length_seq, read_sheet_rows_length.
    clear. induction xls as [|sh r IH]; simpl; [lia|].
    pose proof (filter_length_le (fun row => existsb notna row) (rows sh)).
    unfold dropna_all at 1. lia. }
  rewrite !map_map. cbn [duration_str direction assigned_to].
  split; [apply nth_seq_map|].
  split.
  - rewrite (Hlen "duration_str" "direction"). apply nth_seq_map.
  - rewrite (Hlen "duration_str" "assigned_to"). apply nth_seq_map.
Qed.

Lemma load_excel_rows_witness :
  load_excel to_datetime_stamps str_stamp_plain sample_book = Py.Ok sample_table /\
  List.length sample_table = 3%nat.
Proof.
  split; [exact sample_book_loads|].
  exact (proj1 (load_excel_rows to_datetime_stamps str_stamp_plain
                  sample_book sample_table sample_book_loads)).
Defined.

(** X3.  Renaming the columns a second time changes nothing, and a sheet
    has the column [start] after renaming exactly when its header has
    "Call Start" or already has "start"; likewise for the other four
    canonical names and their source names. *)
Theorem rename_column_canonical :
  (forall c, rename_column (rename_column c) = rename_column c) /\
  (forall cols,
      has_column "start" (map rename_column cols)
      = has_column "Call Start" cols || has_column "start" cols) /\
  (forall cols,
      has_column "end" (map rename_column cols)
      = has_column "Call End" cols || has_column "end" cols) /\
  (forall cols,
      has_column "duration_str" (map rename_column cols)
      = has_column "Total Call Time (H:m:s)" cols || has_column "duration_str" cols) /\
  (forall cols,
      has_column "direction" (map rename_column cols)
      = has_column "Call Type" cols || has_column "direction" cols) /\
  (forall cols,
      has_column "assigned_to" (map rename_column cols)
      = has_column "Assigned User" cols || has_column "assigned_to" cols).
Proof.
  split.
  { intros c. rename_cases c.
    unfold rename_column.
    now rewrite (proj2 (String.eqb_neq _ _) H1), (proj2 (String.eqb_neq _ _) H2),
      (proj2 (String.eqb_neq _ _) H3), (proj2 (String.eqb_neq _ _) H4),
      (proj2 (String.eqb_neq _ _) H5). }
  repeat split; intros cols; apply has_column_renamed; simpl; tauto.
Qed.

(* ================================================================== *)
(** * Further properties of the parser *)
(* ================================================================== *)

Lemma forall_chars_has p s c :
  forall_chars p s = true -> has_char c s = true -> p c = true.
Proof.
  induction s as [|c' r IH]; simpl; [discriminate|].
  intros Hp Hc. apply andb_true_iff in Hp as [Hp Hr].
  apply orb_true_iff in Hc as [Hc|Hc]; [|now apply IH].
  apply Ascii.eqb_eq in Hc. now subst.
Qed.

Lemma forall_chars_weaken (p q : ascii -> bool) s :
  (forall c, p c = true -> q c = true) ->
  forall_chars p s = true -> forall_chars q s = true.
Proof.
  intros Hpq. induction s as [|c r IH]; simpl; [reflexivity|].
  intros H. apply andb_true_iff in H as [Hc Hr].
  now rewrite (Hpq _ Hc), (IH Hr).
Qed.

Lemma int_digits_chars :
  forall s st acc z,
    Py.int_digits st acc s = Some z ->
    forall_chars (fun c => is_digit c || Ascii.eqb c "_") s = true.
Proof.
  induction s as [|c r IH]; cbn [Py.int_digits forall_chars]; intros st acc z H;
    [reflexivity|].
  unfold is_digit at 1.
  destruct (Py.digit_val c) as [d|].
  - now rewrite (IH _ _ _ H).
  - destruct (Ascii.eqb c "_"); [|discriminate].
    destruct st; try discriminate. now rewrite (IH _ _ _ H).
Qed.

Lemma lstrip_chars p s :
  (forall c, Py.is_space c = true -> p c = true) ->
  forall_chars p (Py.lstrip s) = true -> forall_chars p s = true.
Proof.
  intros Hsp. induction s as [|c r IH]; cbn [Py.lstrip]; [reflexivity|].
  destruct (Py.is_space c) eqn:Hc; [|exact (fun H => H)].
  intros H. cbn [forall_chars]. now rewrite (Hsp _ Hc), (IH H).
Qed.

Lemma rstrip_empty_chars s :
  Py.rstrip s = EmptyString -> forall_chars Py.is_space s = true.
Proof.
  induction s as [|c r IH]; cbn [Py.rstrip forall_chars]; [reflexivity|].
  destruct (Py.rstrip r); [|discriminate].
  destruct (Py.is_space c); [|discriminate]. intros _. now rewrite IH.
Qed.

Lemma rstrip_chars p s :
  (forall c, Py.is_space c = true -> p c = true) ->
  forall_chars p (Py.rstrip s) = true -> forall_chars p s = true.
Proof.
  intros Hsp. induction s as [|c r IH]; cbn [Py.rstrip]; [reflexivity|].
  destruct (Py.rstrip r) as [|c' r'] eqn:Hr.
  - pose proof (forall_chars_weaken _ p _ Hsp (rstrip_empty_chars _ Hr)) as Hall.
    destruct (Py.is_space c) eqn:Hc; cbn [forall_chars]; intros H.
    + now rewrite (Hsp _ Hc), Hall.
    + apply andb_true_iff in H as [H _]. now rewrite H, Hall.
  - cbn [forall_chars] in *. intros H.
    apply andb_true_iff in H as [Hc H]. now rewrite Hc, (IH H).
Qed.

Lemma int_literal_chars s z :
  Py.int_literal s = Some z -> forall_chars duration_char s = true.
Proof.
  unfold Py.int_literal. intros H.
  assert (Hsp : forall c, Py.is_space c = true -> duration_char c = true).
  { intros c Hc. unfold duration_char. rewrite Hc.
    now rewrite orb_true_r. }
  assert (Hdig : forall c, is_digit c || Ascii.eqb c "_" = true ->
                           duration_char c = true).
  { intros c Hc. unfold duration_char.
    apply orb_true_iff in Hc as [-> | ->]; [reflexivity|].
    now rewrite !orb_true_r. }
  apply (lstrip_chars _ _ Hsp), (rstrip_chars _ _ Hsp). fold (Py.strip s).
  destruct (Py.strip s) as [|c r]; [discriminate|].
  destruct (Ascii.eqb c "-") eqn:Hm.
  - destruct (Py.int_digits Py.DStart 0 r) as [v|] eqn:Hd; [|discriminate].
    cbn [forall_chars]. unfold duration_char at 1.
    rewrite Hm, !orb_true_r.
    exact (forall_chars_weaken _ _ _ Hdig (int_digits_chars _ _ _ _ Hd)).
  - destruct (Ascii.eqb c "+") eqn:Hp.
    + cbn [forall_chars]. unfold duration_char at 1.
      rewrite Hp, !orb_true_r.
      exact (forall_chars_weaken _ _ _ Hdig (int_digits_chars _ _ _ _ H)).
    + exact (forall_chars_weaken _ _ _ Hdig (int_digits_chars _ _ _ _ H)).
Qed.

Lemma split_colon_forall p :
  p ":"%char = true ->
  forall x, (forall t, In t (Py.split_colon x) -> forall_chars p t = true) ->
            forall_chars p x = true.
Proof.
  intros Hcolon. induction x as [|c r IH]; cbn [Py.split_colon forall_chars];
    [reflexivity|].
  destruct (Ascii.eqb c ":") eqn:Hc.
  - apply Ascii.eqb_eq in Hc. subst c. intros H. rewrite Hcolon.
    apply IH. intros t Ht. apply H. now right.
  - destruct (Py.split_colon r) as [|h tl] eqn:Hs.
    + now elim (split_colon_nonempty r).
    + intros H. pose proof (H _ (or_introl eq_refl)) as Hh.
      cbn [forall_chars] in Hh. apply andb_true_iff in Hh as [Hpc Hh].
      rewrite Hpc. apply IH. intros t [<-|Ht]; [exact Hh|].
      apply H. now right.
Qed.

(** X4.  On ASCII text, a duration that parses is written with digits,
    blanks, colons, signs and underscores only: an ASCII string with any
    other character, such as the point of a fraction of a second or a
    letter, gives the null value. *)
Theorem to_seconds_alphabet :
  (forall x v, forall_chars is_ascii x = true ->
               to_seconds x = Py.Ok (Some v) ->
               forall_chars duration_char x = true) /\
  (forall x c, forall_chars is_ascii x = true ->
               has_char c x = true -> duration_char c = false ->
               to_seconds x = Py.Ok None).
Proof.
  assert (H1 : forall x v, to_seconds x = Py.Ok (Some v) ->
                           forall_chars duration_char x = true).
  { intros x v H. rewrite to_seconds_eq in H. injection H as H.
    apply split_colon_forall; [reflexivity|].
    destruct (Py.split_colon x) as [|a [|b [|c [|d l]]]]; try discriminate H.
    unfold hms_value in H.
    destruct (Py.int_literal a) eqn:Ha; [|discriminate].
    destruct (Py.int_literal b) eqn:Hb; [|discriminate].
    destruct (Py.int_literal c) eqn:Hc; [|discriminate].
    intros t [<-|[<-|[<-|[]]]]; eapply int_literal_chars; eassumption. }
  split; [intros x v _; apply H1|].
  intros x c _ Hc Hd. destruct (to_seconds_returns x) as [[v|] Hv]; [|exact Hv].
  rewrite (forall_chars_has _ _ _ (H1 _ _ Hv) Hc) in Hd. discriminate.
Qed.

Lemma to_seconds_alphabet_witness :
  forall_chars is_ascii "00:01:40.5" = true /\
  has_char "." "00:01:40.5" = true /\ to_seconds "00:01:40.5" = Py.Ok None.
Proof.
  split; [reflexivity|]. split; [reflexivity|].
  exact (proj2 to_seconds_alphabet "00:01:40.5" "."%char eq_refl eq_refl eq_refl).
Defined.

(* ================================================================== *)
(** * Further properties of the filters *)
(* ================================================================== *)

Lemma notna_iff c : notna c = true <-> c <> CNull.
Proof. destruct c; simpl; split; congruence. Qed.

Lemma filter_filter_and {A : Type} (f g : A -> bool) (l : list A) :
  filter f (filter g l) = filter (fun x => g x && f x) l.
Proof.
  induction l as [|x r IH]; simpl; [reflexivity|].
  destruct (g x); simpl; [destruct (f x)|]; now rewrite IH.
Qed.

Lemma isin_incl (x : Cell) (small large : list Cell) :
  incl small large ->
  isin cell_eqb x small = true -> isin cell_eqb x large = true.
Proof.
  intros Hincl H. apply (isin_In cell_eqb cell_eqb_spec) in H.
  apply (isin_In cell_eqb cell_eqb_spec). now apply Hincl.
Qed.

(** X5.  Each sidebar filter offers every value of its column that is not
    null exactly once, and nothing else; there are never more options
    than rows. *)
Theorem options_distinct_observed (df : list CallRecord) :
  NoDup (assigned_options df) /\
  NoDup (direction_options df) /\
  (forall c, In c (assigned_options df) <->
             c <> CNull /\ exists r, In r df /\ assigned_to r = c) /\
  (forall c, In c (direction_options df) <->
             c <> CNull /\ exists r, In r df /\ direction r = c) /\
  (List.length (assigned_options df) <= List.length df)%nat /\
  (List.length (direction_options df) <= List.length df)%nat.
Proof.
  assert (Hin : forall (f : CallRecord -> Cell) c,
             In c (options (map f df)) <->
             c <> CNull /\ exists r, In r df /\ f r = c).
  { intros f c. rewrite options_In, notna_iff, in_map_iff. split.
    - intros [[r [Hr Hin]] Hc]. split; [assumption|]. now exists r.
    - intros [Hc [r [Hin Hr]]]. split; [now exists r | assumption]. }
  assert (Hlen : forall (f : CallRecord -> Cell),
             (List.length (options (map f df)) <= List.length df)%nat).
  { intros f. rewrite <- (length_map f df).
    apply NoDup_incl_length; [apply (unique_NoDup cell_eqb cell_eqb_spec)|].
    intros c Hc. now apply options_In in Hc. }
  split; [apply (unique_NoDup cell_eqb cell_eqb_spec)|].
  split; [apply (unique_NoDup cell_eqb cell_eqb_spec)|].
  split; [apply Hin|]. split; [apply Hin|]. split; apply Hlen.
Qed.

(** X6.  Two selections applied one after the other give the same table
    in either order.  Narrowing the selection on a table already filtered
    gives the table the narrower selection gives on the input.  The
    filtered table is made of rows of the input and has no more rows. *)
Theorem filtered_df_narrow (df : list CallRecord) (a1 d1 a2 d2 : list Cell) :
  filtered_df (filtered_df df a1 d1) a2 d2
  = filtered_df (filtered_df df a2 d2) a1 d1 /\
  (incl a2 a1 -> incl d2 d1 ->
   filtered_df (filtered_df df a1 d1) a2 d2 = filtered_df df a2 d2) /\
  incl (filtered_df df a1 d1) df /\
  (total_calls (filtered_df df a1 d1) <= total_calls df)%nat.
Proof.
  rewrite !filtered_df_filter, !filter_filter_and. split; [|split; [|split]].
  - apply filter_ext. intros r. apply andb_comm.
  - intros Ha Hd. apply filter_ext. intros r. unfold keep.
    destruct (isin cell_eqb (assigned_to r) a2) eqn:E2;
      [|now rewrite andb_false_r].
    destruct (isin cell_eqb (direction r) d2) eqn:F2;
      [|now rewrite andb_false_r].
    now rewrite (isin_incl _ _ _ Ha E2), (isin_incl _ _ _ Hd F2).
  - intros r Hr. now apply filter_In in Hr.
  - apply filter_length_le.
Qed.

Lemma filtered_df_narrow_witness :
  incl [CText "ann"] [CText "ann"; CText "bob"] /\
  filtered_df (filtered_df sample_table [CText "ann"; CText "bob"]
                 [CText "Incoming"; CText "Outgoing"])
              [CText "ann"] [CText "Incoming"]
  = filtered_df sample_table [CText "ann"] [CText "Incoming"].
Proof.
  assert (Ha : incl [CText "ann"] [CText "ann"; CText "bob"])
    by (intros c [<-|[]]; now left).
  assert (Hd : incl [CText "Incoming"] [CText "Incoming"; CText "Outgoing"])
    by (intros c [<-|[]]; now left).
  split; [exact Ha|].
  exact (proj1 (proj2 (filtered_df_narrow sample_table
                         [CText "ann"; CText "bob"]
                         [CText "Incoming"; CText "Outgoing"]
                         [CText "ann"] [CText "Incoming"])) Ha Hd).
Defined.

(** X7.  When nothing is selected in one of the two filters, no row is
    kept, and the KPIs of the filtered table are 0 calls, 0 minutes and an
    average of 0. *)
Theorem filtered_df_nothing_selected (df : list CallRecord) (sel : list Cell) :
  filtered_df df [] sel = [] /\
  filtered_df df sel [] = [] /\
  total_calls (filtered_df df [] sel) = 0%nat /\
  total_duration (filtered_df df [] sel) = Fin 0 /\
  avg_duration (filtered_df df [] sel) = Fin 0 /\
  total_calls (filtered_df df sel []) = 0%nat /\
  total_duration (filtered_df df sel []) = Fin 0 /\
  avg_duration (filtered_df df sel []) = Fin 0.
Proof.
  assert (H1 : filtered_df df [] sel = []).
  { rewrite filtered_df_filter. induction df as [|r rs IH]; [reflexivity|].
    exact IH. }
  assert (H2 : filtered_df df sel [] = []).
  { clear H1. rewrite filtered_df_filter.
    induction df as [|r rs IH]; [reflexivity|].
    cbn [filter]. unfold keep at 1. cbn [isin existsb].
    rewrite andb_false_r. exact IH. }
  rewrite H1, H2. repeat split; reflexivity.
Qed.

(* ================================================================== *)
(** * Further properties of the KPIs *)
(* ================================================================== *)

Lemma total_duration_eq fdf :
  total_duration fdf
  = Fin (Qred (inject_Z (fold_right Z.add 0 (present (map duration_sec fdf)))
               / inject_Z 60)).
Proof.
  unfold total_duration, div_by. now rewrite series_sum_present.
Qed.

Lemma avg_duration_eq r fdf :
  avg_duration (r :: fdf)
  = match present (map duration_sec (r :: fdf)) with
    | [] => NaN
    | z :: zs =>
        Fin (Qred (Qred (inject_Z (fold_right Z.add 0 (z :: zs))
                         / inject_Z (Z.of_nat (List.length (z :: zs))))
                   / inject_Z 60))
    end.
Proof.
  unfold avg_duration, total_calls. cbn [List.length Nat.ltb Nat.leb].
  unfold series_mean. rewrite series_count_present, series_sum_present.
  now destruct (present (map duration_sec (r :: fdf))).
Qed.

(** X8.  The total talk time is always a number.  The average is NaN
    exactly when the table has rows and none of them has a duration: the
    test on the number of calls guards the empty table only. *)
Theorem avg_duration_nan (fdf : list CallRecord) :
  (exists q, total_duration fdf = Fin q) /\
  (avg_duration fdf = NaN <->
   fdf <> [] /\ present (map duration_sec fdf) = []).
Proof.
  split; [rewrite total_duration_eq; eexists; reflexivity|].
  destruct fdf as [|r fdf].
  - split; [discriminate | now intros [H _]].
  - rewrite avg_duration_eq.
    destruct (present (map duration_sec (r :: fdf))); split.
    + intros _. split; [discriminate | reflexivity].
    + reflexivity.
    + discriminate.
    + now intros [_ H].
Qed.

(* ================================================================== *)
(** * Further properties of the half-hour slots *)
(* ================================================================== *)

Lemma floor_30min_index t :
  floor_30min t = (t / ns_per_day) * ns_per_day
                  + half_hour_index t * (30 * ns_per_minute).
Proof.
  unfold floor_30min, half_hour_index, time_of_day.
  unfold ns_per_day, ns_per_hour, ns_per_minute, ns_per_second.
  Z.to_euclidean_division_equations. lia.
Qed.

Lemma half_hour_index_range t : 0 <= half_hour_index t < 48.
Proof.
  unfold half_hour_index, time_of_day.
  unfold ns_per_day, ns_per_hour, ns_per_minute, ns_per_second.
  Z.to_euclidean_division_equations. lia.
Qed.

Lemma hour_slot_index_label t :
  strftime_I_M_p (floor_30min t) = slot_label (half_hour_index t).
Proof.
  rewrite floor_30min_index. apply strftime_day_shift.
Qed.

(** X10.  Flooring to the half hour keeps the hour, and sets the minutes
    to 0 or 30 according to the half of the hour; the floored time is at
    most the time and less than thirty minutes below it, and flooring
    again changes nothing.  The label of a start depends on its time of
    day only: it is the label of the half hour of the day it falls in. *)
Theorem floor_30min_label (t : Z) :
  floor_30min t <= t < floor_30min t + 30 * ns_per_minute /\
  floor_30min (floor_30min t) = floor_30min t /\
  hour_of (floor_30min t) = hour_of t /\
  minute_of (floor_30min t) = (if minute_of t <? 30 then 0 else 30) /\
  0 <= half_hour_index t < 48 /\
  strftime_I_M_p (floor_30min t) = slot_label (half_hour_index t).
Proof.
  split.
  { unfold floor_30min.
    pose proof (Z.mod_pos_bound t (30 * ns_per_minute) eq_refl). lia. }
  split.
  { unfold floor_30min, ns_per_minute, ns_per_second.
    Z.to_euclidean_division_equations. lia. }
  split.
  { unfold hour_of, floor_30min, ns_per_hour, ns_per_minute, ns_per_second.
    Z.to_euclidean_division_equations. lia. }
  split.
  { unfold minute_of, floor_30min, ns_per_minute, ns_per_second.
    destruct (Z.ltb_spec ((t / (60 * 1000000000)) mod 60) 30);
      Z.to_euclidean_division_equations; lia. }
  split; [apply half_hour_index_range | apply hour_slot_index_label].
Qed.

(** The labels of the 48 half hours of a day: those of the nineteen
    business slots are the half hours 19 to 37. *)
Lemma slot_label_business :
  forallb (fun k => Bool.eqb (isin String.eqb (slot_label (Z.of_nat k)) business_slots)
                             ((19 <=? Z.of_nat k) && (Z.of_nat k <=? 37)))
          (seq 0 48) = true.
Proof. vm_compute. reflexivity. Qed.

Lemma slot_label_in_business k :
  0 <= k < 48 ->
  isin String.eqb (slot_label k) business_slots
  = (19 <=? k) && (k <=? 37).
Proof.
  intros Hk. pose proof slot_label_business as H.
  rewrite forallb_forall in H.
  specialize (H (Z.to_nat k)). rewrite Z2Nat.id in H by lia.
  apply Bool.eqb_prop, H, in_seq. lia.
Qed.

Lemma business_window t :
  slot_isin (Some (strftime_I_M_p (floor_30min t))) business_slots = true <->
  9 * ns_per_hour + 30 * ns_per_minute <= time_of_day t < 19 * ns_per_hour.
Proof.
  cbn [slot_isin]. rewrite hour_slot_index_label.
  rewrite (slot_label_in_business _ (half_hour_index_range t)).
  rewrite andb_true_iff, Z.leb_le, Z.leb_le.
  unfold half_hour_index.
  pose proof (Z.mod_pos_bound t ns_per_day eq_refl) as Hb.
  fold (time_of_day t) in Hb.
  unfold ns_per_day, ns_per_hour, ns_per_minute, ns_per_second in *.
  Z.to_euclidean_division_equations. lia.
Qed.

(** X11.  A call is counted in [calls_by_hour] exactly when it has a
    start whose time of day is from 09:30 on and before 19:00, whatever
    its day; a call without a start is never counted. *)
Theorem df_hour_window (today : Z) (fdf : list CallRecord) (r : CallRecord) :
  In r (df_hour today fdf) <->
  In r fdf /\
  exists t, start r = Some t /\
            9 * ns_per_hour + 30 * ns_per_minute <= time_of_day t < 19 * ns_per_hour.
Proof.
  rewrite df_hour_filter, valid_hours_eq, filter_In.
  unfold hour_slot. destruct (start r) as [t|]; cbn [option_map].
  - rewrite business_window. split.
    + intros [Hr Hw]. split; [assumption|]. now exists t.
    + intros [Hr [t' [[= <-] Hw]]]. now split.
  - cbn [slot_isin]. split.
    + intros [_ H]. discriminate.
    + intros [_ [t [H _]]]. discriminate.
Qed.

(* ================================================================== *)
(** * Order of the groups *)
(* ================================================================== *)

Lemma string_compare_le_trans :
  forall a b c : string,
    String.compare a b <> Gt -> String.compare b c <> Gt ->
    String.compare a c <> Gt.
Proof.
  induction a as [|x a IH]; intros [|y b] [|z c]; simpl; try congruence.
  unfold Ascii.compare.
  destruct (N.compare_spec (N_of_ascii x) (N_of_ascii y)) as [E1|L1|G1];
    destruct (N.compare_spec (N_of_ascii y) (N_of_ascii z)) as [E2|L2|G2];
    destruct (N.compare_spec (N_of_ascii x) (N_of_ascii z)) as [E3|L3|G3];
    try congruence; try lia.
  apply IH.
Qed.

Lemma string_leb_trans a b c :
  String.leb a b = true -> String.leb b c = true -> String.leb a c = true.
Proof.
  unfold String.leb. intros H1 H2.
  pose proof (string_compare_le_trans a b c) as H.
  destruct (String.compare a b), (String.compare b c), (String.compare a c);
    try reflexivity; try discriminate; exfalso; apply H; congruence.
Qed.

Section SortFacts.

Context {K : Type}.
Variable leb : K -> K -> bool.
Hypothesis leb_total : forall a b, leb a b = true \/ leb b a = true.
Hypothesis leb_trans : forall a b c, leb a b = true -> leb b c = true -> leb a c = true.
Hypothesis leb_antisym : forall a b, leb a b = true -> leb b a = true -> a = b.

Local Abbreviation le := (fun a b : K => leb a b = true).

Lemma insert_sorted_sorted k l :
  StronglySorted le l -> StronglySorted le (insert_sorted leb k l).
Proof using leb_total leb_trans.
  induction 1 as [|x r Hr IH Hx]; simpl.
  - repeat constructor.
  - destruct (leb k x) eqn:Hk.
    + constructor; [now constructor|]. constructor; [exact Hk|].
      rewrite Forall_forall in *. intros y Hy.
      exact (leb_trans _ _ _ Hk (Hx y Hy)).
    + constructor; [exact IH|].
      apply (Permutation_Forall (Permutation_sym (insert_sorted_perm leb k r))).
      constructor; [|exact Hx].
      destruct (leb_total k x) as [H|H]; [congruence | exact H].
Qed.

Lemma sort_keys_sorted l : StronglySorted le (sort_keys leb l).
Proof using leb_total leb_trans.
  induction l as [|x r IH]; simpl; [constructor|].
  now apply insert_sorted_sorted.
Qed.

(** Two duplicate-free lists in ascending order with the same elements
    are the same list. *)
Lemma sorted_unique :
  forall l1 l2,
    StronglySorted le l1 -> StronglySorted le l2 ->
    NoDup l1 -> NoDup l2 ->
    (forall x, In x l1 <-> In x l2) -> l1 = l2.
Proof using leb_antisym.
  induction l1 as [|x r IH]; intros [|y s] H1 H2 N1 N2 Heq.
  - reflexivity.
  - now elim (proj2 (Heq y) (or_introl eq_refl)).
  - now elim (proj1 (Heq x) (or_introl eq_refl)).
  - inversion H1 as [|? ? Hr Hx]; inversion H2 as [|? ? Hs Hy]; subst.
    inversion N1 as [|? ? Nx Nr]; inversion N2 as [|? ? Ny Ns]; subst.
    rewrite Forall_forall in Hx, Hy.
    assert (Exy : x = y).
    { destruct (proj1 (Heq x) (or_introl eq_refl)) as [E|Hin]; [now subst|].
      destruct (proj2 (Heq y) (or_introl eq_refl)) as [E|Hin']; [now subst|].
      apply leb_antisym; [apply (Hx y Hin') | apply (Hy x Hin)]. }
    subst y. f_equal. apply IH; try assumption.
    intros z. split; intros Hz.
    + destruct (proj1 (Heq z) (or_intror Hz)) as [E|H]; [|exact H].
      subst z. contradiction.
    + destruct (proj2 (Heq z) (or_intror Hz)) as [E|H]; [|exact H].
      subst z. contradiction.
Qed.

End SortFacts.

Lemma monday_calls_cover l :
  In l business_slots -> exists r, In r monday_calls /\ hour_slot r = Some l.
Proof.
  intros Hl.
  assert (H : forallb (fun l => existsb (fun r => slot_is l r) monday_calls)
                      business_slots = true) by (vm_compute; reflexivity).
  rewrite forallb_forall in H. specialize (H l Hl).
  apply existsb_exists in H as [r [Hr Hs]]. exists r. split; [exact Hr|].
  unfold slot_is in Hs. destruct (hour_slot r) as [l'|]; [|discriminate].
  apply String.eqb_eq in Hs. now subst.
Qed.

(** X12.  The rows of [calls_by_hour] are in ascending order of the text
    of their labels, not of the time of day: when every one of the
    nineteen slots has a call, the rows run from 01:00 PM to 06:30 PM,
    then from 09:30 AM to 12:30 PM. *)
Theorem calls_by_hour_label_order (today : Z) (fdf : list CallRecord) :
  StronglySorted string_le (map fst (calls_by_hour today fdf)) /\
  ((forall l, In l business_slots ->
              exists r, In r fdf /\ hour_slot r = Some l) ->
   map fst (calls_by_hour today fdf) = slots_by_label).
Proof.
  assert (Hsorted : StronglySorted string_le (map fst (calls_by_hour today fdf))).
  { unfold calls_by_hour. rewrite groupby_size_keys.
    apply (sort_keys_sorted String.leb String.leb_total string_leb_trans). }
  split; [exact Hsorted|]. intros Hall.
  apply (sorted_unique String.leb String.leb_antisym).
  - exact Hsorted.
  - change slots_by_label with (sort_keys String.leb slots_by_label).
    apply (sort_keys_sorted String.leb String.leb_total string_leb_trans).
  - apply (groupby_size_NoDup String.eqb String.leb String.eqb_spec).
  - apply (Permutation_NoDup
             (l := unique String.eqb slots_by_label));
      [reflexivity | apply (unique_NoDup String.eqb String.eqb_spec)].
  - intros l.
    assert (Hb : In l slots_by_label <-> In l business_slots).
    { change slots_by_label with (sort_keys String.leb business_slots). split.
      - apply Permutation_in, sort_keys_perm.
      - apply Permutation_in, Permutation_sym, sort_keys_perm. }
    rewrite Hb. unfold calls_by_hour. rewrite groupby_size_keys. split.
    + intros H. apply (Permutation_in _ (sort_keys_perm _ _)) in H.
      apply (proj1 (unique_In String.eqb String.eqb_spec _ _)) in H.
      apply slot_keys_In in H as [r [Hr Hs]].
      rewrite df_hour_filter, valid_hours_eq in Hr.
      apply filter_In in Hr as [_ Hv]. rewrite Hs in Hv.
      now apply (isin_In String.eqb String.eqb_spec) in Hv.
    + intros H. apply (Permutation_in _ (Permutation_sym (sort_keys_perm _ _))).
      apply (unique_In String.eqb String.eqb_spec), slot_keys_In.
      destruct (Hall l H) as [r [Hr Hs]]. exists r. split; [|exact Hs].
      rewrite df_hour_filter, valid_hours_eq. apply filter_In.
      split; [exact Hr|]. rewrite Hs.
      now apply (isin_In String.eqb String.eqb_spec).
Qed.

Lemma calls_by_hour_label_order_witness :
  map fst (calls_by_hour 19793 monday_calls) = slots_by_label.
Proof.
  exact (proj2 (calls_by_hour_label_order 19793 monday_calls) monday_calls_cover).
Defined.

(* ================================================================== *)
(** * Properties of the heatmap *)
(* ================================================================== *)

Lemma pair_eqb_spec (a b : string * string) : reflect (a = b) (pair_eqb a b).
Proof.
  destruct a as [d l], b as [d' l']. unfold pair_eqb. cbn [fst snd].
  destruct (String.eqb_spec d d'), (String.eqb_spec l l');
    constructor; congruence.
Qed.

Lemma df_heat_filter today fdf :
  df_heat today fdf = filter on_heatmap fdf.
Proof.
  unfold df_heat. rewrite !select_mask, filter_filter_and, valid_hours_eq.
  reflexivity.
Qed.

Lemma heat_keys_In d l df :
  In (d, l) (heat_keys df) <->
  exists r, In r df /\ dayofweek r = Some d /\ hour_slot r = Some l.
Proof.
  unfold heat_keys. rewrite in_flat_map. split.
  - intros [r [Hr Hk]]. exists r. split; [assumption|].
    destruct (dayofweek r), (hour_slot r); cbn [In] in Hk; try tauto.
    destruct Hk as [[= -> ->]|[]]. now split.
  - intros [r [Hr [Hd Hl]]]. exists r. split; [assumption|].
    rewrite Hd, Hl. now left.
Qed.

Lemma heat_keys_kept_length fdf :
  List.length (heat_keys (filter on_heatmap fdf))
  = List.length (filter on_heatmap fdf).
Proof.
  induction fdf as [|r rs IH]; cbn [filter]; [reflexivity|].
  destruct (on_heatmap r) eqn:Hv; [|exact IH].
  unfold heat_keys in *. cbn [flat_map]. unfold on_heatmap in Hv.
  apply andb_true_iff in Hv as [Hd Hl].
  destruct (dayofweek r); [|discriminate Hd].
  destruct (hour_slot r); [|discriminate Hl].
  cbn [app List.length]. now rewrite IH.
Qed.

Lemma day_name_valid t :
  isin String.eqb (day_name t) valid_days
  = negb (String.eqb (day_name t) "Sunday").
Proof.
  unfold day_name.
  pose proof (Z.mod_pos_bound (dt_date t + 3) 7 eq_refl) as Hb.
  remember ((dt_date t + 3) mod 7) as k.
  assert (Hk : In (Z.to_nat k) (seq 0 7)) by (apply in_seq; lia).
  clear Heqk Hb. revert Hk. generalize (Z.to_nat k). intros n Hn.
  cbn in Hn. destruct Hn as [<-|[<-|[<-|[<-|[<-|[<-|[<-|[]]]]]]]]; reflexivity.
Qed.

(** X13.  The heatmap has no row for Sunday: a call is counted in it
    exactly when it has a start that is not on a Sunday and whose time of
    day is from 09:30 on and before 19:00.  Each row is for a day from
    Monday to Saturday and one of the nineteen slots in which such a call
    exists, the counts add up to the number of those calls, and never to
    more than the counts of [calls_by_hour]. *)
Theorem heatmap_no_sunday (today : Z) (fdf : list CallRecord) :
  (forall r, In r (df_heat today fdf) <->
             In r fdf /\
             exists t, start r = Some t /\ day_name t <> "Sunday" /\
                       9 * ns_per_hour + 30 * ns_per_minute
                       <= time_of_day t < 19 * ns_per_hour) /\
  (forall d l n, In ((d, l), n) (heatmap_data today fdf) ->
                 d <> "Sunday" /\ In d valid_days /\ In l business_slots /\
                 (0 < n)%nat /\
                 exists r, In r fdf /\ dayofweek r = Some d /\ hour_slot r = Some l) /\
  NoDup (map fst (heatmap_data today fdf)) /\
  sum_counts (heatmap_data today fdf) = List.length (filter on_heatmap fdf) /\
  (sum_counts (heatmap_data today fdf) <= sum_counts (calls_by_hour today fdf))%nat.
Proof.
  split; [|split; [|split; [|split]]].
  - intros r. rewrite df_heat_filter, filter_In. unfold on_heatmap.
    rewrite andb_true_iff. unfold dayofweek, hour_slot.
    destruct (start r) as [t|]; cbn [option_map].
    + rewrite business_window. cbn [slot_isin]. rewrite day_name_valid.
      rewrite negb_true_iff, String.eqb_neq. split.
      * intros [Hr [Hd Hw]]. split; [assumption|]. now exists t.
      * intros [Hr [t' [[= <-] [Hd Hw]]]]. now repeat split.
    + cbn [slot_isin]. split.
      * intros [_ [H _]]. discriminate.
      * intros [_ [t [H _]]]. discriminate.
  - intros d l n Hin. unfold heatmap_data in Hin.
    apply (groupby_size_In pair_eqb pair_leb pair_eqb_spec) in Hin as [Hk ->].
    pose proof (count_pos pair_eqb pair_eqb_spec _ _ Hk) as Hpos.
    apply heat_keys_In in Hk as [r [Hr [Hd Hl]]].
    rewrite df_heat_filter in Hr. apply filter_In in Hr as [Hr Hv].
    unfold on_heatmap in Hv. rewrite Hd, Hl in Hv. cbn [slot_isin] in Hv.
    apply andb_true_iff in Hv as [Hv1 Hv2].
    apply (isin_In String.eqb String.eqb_spec) in Hv1, Hv2.
    split.
    { intros ->. cbn in Hv1.
      destruct Hv1 as [E|[E|[E|[E|[E|[E|[]]]]]]]; discriminate E. }
    split; [exact Hv1|]. split; [exact Hv2|]. split; [exact Hpos|].
    now exists r.
  - apply (groupby_size_NoDup pair_eqb pair_leb pair_eqb_spec).
  - unfold heatmap_data.
    rewrite (groupby_size_sum pair_eqb pair_leb pair_eqb_spec), df_heat_filter.
    apply heat_keys_kept_length.
  - unfold heatmap_data, calls_by_hour.
    rewrite (groupby_size_sum pair_eqb pair_leb pair_eqb_spec).
    rewrite (groupby_size_sum String.eqb String.leb String.eqb_spec).
    rewrite df_heat_filter, heat_keys_kept_length.
    rewrite df_hour_filter, valid_hours_eq, slot_keys_kept_length.
    unfold on_heatmap.
    rewrite <- (filter_filter_and
                  (fun r => slot_isin (hour_slot r) business_slots)
                  (fun r => slot_isin (dayofweek r) valid_days)).
    clear. induction fdf as [|r rs IH]; cbn [filter]; [lia|].
    destruct (slot_isin (dayofweek r) valid_days); cbn [filter];
      destruct (slot_isin (hour_slot r) business_slots); cbn [List.length]; lia.
Qed.

Lemma heatmap_no_sunday_witness :
  In (("Monday", "10:00 AM"), 1%nat) (heatmap_data 19793 weekend_calls) /\
  "Monday" <> "Sunday".
Proof.
  assert (H : In (("Monday", "10:00 AM"), 1%nat) (heatmap_data 19793 weekend_calls))
    by (vm_compute; left; reflexivity).
  split; [exact H|].
  exact (proj1 (proj1 (proj2 (heatmap_no_sunday 19793 weekend_calls))
                  "Monday" "10:00 AM" 1%nat H)).
Defined.

(* ================================================================== *)
(** * Further properties of the calls per day *)
(* ================================================================== *)

Lemma date_leb_total a b : date_leb a b = true \/ date_leb b a = true.
Proof.
  destruct a as [|d|s], b as [|d'|s']; simpl; try tauto.
  - destruct (Z.leb_spec d d'); [now left|]. right. apply Z.leb_le. lia.
  - apply String.leb_total.
Qed.

Lemma date_leb_trans a b c :
  date_leb a b = true -> date_leb b c = true -> date_leb a c = true.
Proof.
  destruct a as [|d|s], b as [|d'|s'], c as [|d''|s'']; simpl;
    try congruence.
  - rewrite !Z.leb_le. lia.
  - apply string_leb_trans.
Qed.

Lemma date_count d fdf :
  d <> DNull ->
  count date_eqb d (filter date_notna (map date fdf))
  = List.length (filter (fun r => date_eqb (date r) d) fdf).
Proof.
  intros Hd. rewrite (count_filter date_eqb date_eqb_spec).
  induction fdf as [|r rs IH]; cbn [map filter]; [reflexivity|].
  destruct (date_notna (date r)) eqn:Hn; cbn [filter].
  - destruct (date_eqb (date r) d); cbn [List.length]; now rewrite IH.
  - destruct (date_eqb_spec (date r) d) as [E|_]; [|exact IH].
    rewrite E in Hn. destruct d; [congruence | discriminate | discriminate].
Qed.

(** X14.  [calls_per_day] has exactly one row for each date of the table
    that is not null, with the number of rows of that date.  The rows are
    in ascending order: calendar dates by day, before the sheet names,
    which are in the order of their text. *)
Theorem calls_per_day_groups (fdf : list CallRecord) :
  NoDup (map fst (calls_per_day fdf)) /\
  (forall d n, In (d, n) (calls_per_day fdf) <->
               d <> DNull /\ (exists r, In r fdf /\ date r = d) /\
               n = List.length (filter (fun r => date_eqb (date r) d) fdf)) /\
  StronglySorted date_le (map fst (calls_per_day fdf)) /\
  (forall d s, date_le (DDay d) (DLabel s) /\ ~ date_le (DLabel s) (DDay d)) /\
  (forall d d', date_le (DDay d) (DDay d') <-> d <= d').
Proof.
  split; [apply (groupby_size_NoDup date_eqb date_leb date_eqb_spec)|].
  split.
  { intros d n. unfold calls_per_day.
    rewrite (groupby_size_In date_eqb date_leb date_eqb_spec).
    rewrite filter_In, in_map_iff. split.
    - intros [[[r [Hr Hin]] Hn] ->].
      assert (Hd : d <> DNull) by (intros ->; discriminate).
      split; [exact Hd|]. split; [now exists r|]. now apply date_count.
    - intros [Hd [[r [Hin Hr]] ->]]. split; [split|].
      + now exists r.
      + destruct d; [congruence | reflexivity | reflexivity].
      + symmetry. now apply date_count. }
  split.
  { unfold calls_per_day. rewrite groupby_size_keys.
    apply (sort_keys_sorted date_leb date_leb_total date_leb_trans). }
  split.
  - intros d s. split; [reflexivity | discriminate].
  - intros d d'. unfold date_le. simpl. apply Z.leb_le.
Qed.

(* ================================================================== *)
(** * Further properties of the longest calls *)
(* ================================================================== *)

Lemma dur_ge_antisym a b : dur_ge a b -> dur_ge b a -> a = b.
Proof.
  destruct a as [x|], b as [y|]; simpl; try tauto.
  intros H1 H2. f_equal. lia.
Qed.

Lemma sorted_head_max (x : CallRecord) l :
  StronglySorted rec_ge (x :: l) -> forall r, In r (x :: l) -> rec_ge x r.
Proof.
  intros H r [<-|Hr].
  - unfold rec_ge. destruct (duration_sec x); simpl; [lia | exact I].
  - inversion H as [|? ? _ Hx]; subst. rewrite Forall_forall in Hx. now apply Hx.
Qed.

Lemma desc_sorted_unique :
  forall l1 l2,
    StronglySorted rec_ge l1 -> StronglySorted rec_ge l2 ->
    Permutation l1 l2 -> NoDup (map duration_sec l1) -> l1 = l2.
Proof.
  induction l1 as [|x r IH]; intros l2 H1 H2 Hp Hn.
  - now apply Permutation_nil in Hp.
  - destruct l2 as [|y s];
      [now apply Permutation_sym, Permutation_nil in Hp|].
    assert (Exy : x = y).
    { assert (Hx : In x (y :: s)) by (apply (Permutation_in _ Hp); now left).
      assert (Hy : In y (x :: r))
        by (apply (Permutation_in _ (Permutation_sym Hp)); now left).
      destruct Hy as [E|Hy]; [exact E|].
      pose proof (sorted_head_max _ _ H1 y (or_intror Hy)) as G1.
      pose proof (sorted_head_max _ _ H2 x Hx) as G2.
      pose proof (dur_ge_antisym _ _ G1 G2) as E.
      cbn [map] in Hn. inversion Hn as [|? ? Hnot _]; subst.
      elim Hnot. rewrite E. now apply in_map. }
    subst y. f_equal. apply IH.
    + now inversion H1.
    + now inversion H2.
    + now apply Permutation_cons_inv in Hp.
    + cbn [map] in Hn. now inversion Hn.
Qed.


(** X15.  When no two rows of the table have the same duration (so at
    most one has none), the result of [top_longest] is determined: it is
    the first five rows of the table put in descending order. *)
Theorem top_longest_unique (fdf out : list CallRecord) :
  NoDup (map duration_sec fdf) ->
  top_longest fdf out ->
  out = head 5 (stable_sort_desc fdf).
Proof.
  intros Hn [sorted [[Hp Hs] ->]]. f_equal. symmetry.
  apply desc_sorted_unique.
  - apply stable_sort_desc_sorted.
  - exact Hs.
  - now rewrite <- (stable_sort_desc_perm fdf).
  - apply (Permutation_NoDup (l := map duration_sec fdf)); [|exact Hn].
    apply Permutation_map, stable_sort_desc_perm.
Qed.

Lemma sample_table_admissible : top_longest sample_table sample_table.
Proof.
  exists sample_table. split; [|reflexivity]. split; [reflexivity|].
  repeat constructor; unfold rec_ge; simpl; lia.
Qed.

Lemma top_longest_unique_witness :
  NoDup (map duration_sec sample_table) /\
  sample_table = head 5 (stable_sort_desc sample_table).
Proof.
  assert (Hn : NoDup (map duration_sec sample_table)).
  { cbn. repeat constructor; cbn; intuition discriminate. }
  split; [exact Hn|].
  exact (top_longest_unique sample_table sample_table Hn sample_table_admissible).
Defined.

(** X16.  In every result of [top_longest] the first row has the longest
    duration of the table, null counting as the shortest; all rows of the
    result are rows of the table; a table of at most five rows is
    returned whole, rearranged; and the table shown has one line per row
    of the result. *)
Theorem top_longest_first_is_longest (fdf out : list CallRecord) :
  top_longest fdf out ->
  (forall r rest, out = r :: rest -> forall r', In r' fdf -> rec_ge r r') /\
  incl out fdf /\
  ((List.length fdf <= 5)%nat -> Permutation fdf out) /\
  List.length (top_longest_display out) = Nat.min 5 (List.length fdf).
Proof.
  intros [sorted [[Hp Hs] ->]]. unfold head. split; [|split; [|split]].
  - intros r rest Hout r' Hr'.
    destruct sorted as [|x l]; [discriminate Hout|].
    cbn [firstn] in Hout. injection Hout as <- _.
    apply (sorted_head_max _ _ Hs). now apply (Permutation_in _ Hp).
  - intros r Hr. apply (Permutation_in _ (Permutation_sym Hp)).
    rewrite <- (firstn_skipn 5 sorted). apply in_or_app. now left.
  - intros Hlen. rewrite firstn_all2; [exact Hp|].
    now rewrite <- (Permutation_length Hp).
  - unfold top_longest_display.
    now rewrite length_map, length_firstn, (Permutation_length Hp).
Qed.

Lemma top_longest_first_is_longest_witness :
  top_longest tied_calls (head 5 (rev tied_calls)) /\
  incl (head 5 (rev tied_calls)) tied_calls.
Proof.
  split; [exact tied_calls_reversed_admissible|].
  exact (proj1 (proj2 (top_longest_first_is_longest tied_calls _
                         tied_calls_reversed_admissible))).
Defined.

(* ================================================================== *)
(** * Properties of the direction split *)
(* ================================================================== *)

Lemma sum_counts_perm {K : Type} (g g' : list (K * nat)) :
  Permutation g g' -> sum_counts g = sum_counts g'.
Proof.
  induction 1; simpl; lia.
Qed.

Lemma by_count_insert (p : Cell * nat) l :
  StronglySorted (fun a b : Cell * nat => (snd b <= snd a)%nat) l ->
  exists l', Permutation (p :: l) l' /\
             StronglySorted (fun a b : Cell * nat => (snd b <= snd a)%nat) l'.
Proof.
  induction 1 as [|x r Hr IH Hx].
  - exists [p]. split; [reflexivity | repeat constructor].
  - destruct (le_lt_dec (snd x) (snd p)) as [Hle|Hlt].
    + exists (p :: x :: r). split; [reflexivity|].
      constructor; [now constructor|]. constructor; [exact Hle|].
      rewrite Forall_forall in *. intros y Hy. specialize (Hx y Hy). lia.
    + destruct IH as [l' [Hp Hs]]. exists (x :: l'). split.
      * rewrite perm_swap. now constructor.
      * constructor; [exact Hs|].
        apply (Permutation_Forall Hp). constructor; [lia | exact Hx].
Qed.

Lemma by_count_sort (l : list (Cell * nat)) :
  exists l', Permutation l l' /\
             StronglySorted (fun a b : Cell * nat => (snd b <= snd a)%nat) l'.
Proof.
  induction l as [|p r [r' [Hp Hs]]].
  - exists []. split; constructor.
  - destruct (by_count_insert p r' Hs) as [l' [Hp' Hs']]. exists l'.
    split; [|exact Hs']. rewrite <- Hp'. now constructor.
Qed.

Lemma direction_count c fdf :
  count cell_eqb c (filter notna (map direction fdf))
  = List.length (filter (fun r => notna (direction r) && cell_eqb (direction r) c) fdf).
Proof.
  rewrite (count_filter cell_eqb cell_eqb_spec).
  induction fdf as [|r rs IH]; cbn [map filter]; [reflexivity|].
  destruct (notna (direction r)); cbn [filter andb]; [|exact IH].
  destruct (cell_eqb (direction r) c); cbn [List.length]; now rewrite IH.
Qed.

(** X17.  The direction split always has a result, with one row for each
    direction of the table that is not null and the number of rows of
    that direction.  Its counts add up to the number of rows with a
    direction; for a table filtered with a selection of directions that
    has no null in it, as every selection offered has none, they add up
    to the total number of calls. *)
Theorem pie_data_counts (fdf : list CallRecord) :
  (exists out, pie_data fdf out) /\
  forall out, pie_data fdf out ->
    NoDup (map fst out) /\
    (forall c n, In (c, n) out <->
                 c <> CNull /\ (exists r, In r fdf /\ direction r = c) /\
                 n = List.length
                       (filter (fun r => notna (direction r)
                                         && cell_eqb (direction r) c) fdf)) /\
    sum_counts out = List.length (filter (fun r => notna (direction r)) fdf) /\
    (forall df af dfl, fdf = filtered_df df af dfl -> ~ In CNull dfl ->
                       sum_counts out = total_calls fdf).
Proof.
  split.
  { destruct (by_count_sort
                (map (fun k => (k, count cell_eqb k (filter notna (map direction fdf))))
                     (unique cell_eqb (filter notna (map direction fdf)))))
      as [out [Hp Hs]].
    exists out. now split. }
  intros out [Hp Hs].
  assert (Hsum : sum_counts out
                 = List.length (filter (fun r => notna (direction r)) fdf)).
  { rewrite <- (sum_counts_perm _ _ Hp), sum_counts_map.
    rewrite (count_sum cell_eqb cell_eqb_spec);
      [apply filter_map_length | apply (unique_NoDup cell_eqb cell_eqb_spec) |].
    intros k Hk. now apply (unique_In cell_eqb cell_eqb_spec). }
  split; [|split; [|split]].
  - apply (Permutation_NoDup (Permutation_map fst Hp)).
    rewrite map_map. cbn [fst]. rewrite map_id.
    apply (unique_NoDup cell_eqb cell_eqb_spec).
  - intros c n. split.
    + intros Hin. apply (Permutation_in _ (Permutation_sym Hp)) in Hin.
      apply in_map_iff in Hin as [k [E Hk]]. inversion E; subst k n.
      apply (proj1 (options_In c (map direction fdf))) in Hk as [Hin Hc].
      apply in_map_iff in Hin as [r [Hr Hin]].
      split; [now apply notna_iff|]. split; [now exists r|].
      apply direction_count.
    + intros [Hc [[r [Hr Hd]] ->]]. apply (Permutation_in _ Hp).
      apply in_map_iff. exists c. split; [now rewrite direction_count|].
      apply (proj2 (options_In c (map direction fdf))).
      split; [|now apply notna_iff]. apply in_map_iff. now exists r.
  - exact Hsum.
  - intros df af dfl -> Hnull. rewrite Hsum. unfold total_calls. f_equal.
    rewrite filtered_df_filter.
    rewrite filter_filter_and. apply filter_ext_in. intros r Hr.
    destruct (keep af dfl r) eqn:Hk; [|reflexivity]. cbn [andb].
    unfold keep in Hk. apply andb_true_iff in Hk as [_ Hd].
    apply (isin_In cell_eqb cell_eqb_spec) in Hd.
    destruct (direction r); [contradiction | reflexivity | reflexivity].
Qed.

Lemma pie_data_counts_witness :
  pie_data sample_table [(CText "Incoming", 2%nat); (CText "Outgoing", 1%nat)] /\
  sum_counts [(CText "Incoming", 2%nat); (CText "Outgoing", 1%nat)] = 3%nat.
Proof.
  assert (H : pie_data sample_table
                [(CText "Incoming", 2%nat); (CText "Outgoing", 1%nat)]).
  { split; [reflexivity|]. repeat constructor. }
  split; [exact H|].
  exact (proj1 (proj2 (proj2 (proj2 (pie_data_counts sample_table) _ H)))).
Defined.
